(** * TopoPyScale: ERA5 retrieval orchestration ([fetch_era5.py])

    A shallow embedding of [retrieve_era5], [era5_request_surf],
    [era5_request_plev], [eraCat5d] and [retrieve_era5_tpmm], and the
    properties of the month plan, the confirmation gate, the merge commands
    and the monthly-means request.

    Conventions of the embedding.
    - Python integers are [Z]; Python [str] is [string].
    - [startDate]/[endDate] are calendar dates at midnight (the source parses
      them with ["%Y-%m-%d"] in [retrieve_era5_tpmm]); they are the record
      [date].  [valid_date] keeps them inside the years every pandas
      [Timestamp] can hold.
    - The outside world is explicit: [os.path.isfile] and [glob.glob] are
      oracles passed as arguments, the answer typed at [input] is an
      argument, what the workers of the pool raise is an oracle, and every
      call that leaves the process (existence check, prompt, worker pool,
      shell command, CDS retrieval) is an [event] of the trace the run
      returns.  [print] and [logging.info] lines are not recorded.
    - [sys.exit] and uncaught exceptions end the run with a [failure]. *)

From Stdlib Require Import ZArith List String Ascii Bool Lia.
From Stdlib Require Import DecimalString DecimalN Sorted.
Import ListNotations.

Local Open Scope string_scope.
Local Open Scope Z_scope.

Ltac Zify.zify_post_hook ::= Z.div_mod_to_equations.

(** ** Calendar *)

Module Calendar.

Record date := mkDate { year : Z; month : Z; day : Z }.

Definition is_leap (y : Z) : bool :=
  ((y mod 4 =? 0) && negb (y mod 100 =? 0)) || (y mod 400 =? 0).

(** [calendar.monthrange(y, m)[1]] *)
Definition days_in_month (y m : Z) : Z :=
  if m =? 2 then (if is_leap y then 29 else 28)
  else if (m =? 4) || (m =? 6) || (m =? 9) || (m =? 11) then 30
  else 31.

(** Dates a pandas [Timestamp] holds whatever the month and day:
    1678-01-01 .. 2261-12-31. *)
Definition valid_dateb (d : date) : bool :=
  (1678 <=? year d) && (year d <=? 2261) &&
  (1 <=? month d) && (month d <=? 12) &&
  (1 <=? day d) && (day d <=? days_in_month (year d) (month d)).

Definition valid_date (d : date) : Prop := valid_dateb d = true.

(** Timestamp comparison [a <= b] on midnight dates. *)
Definition date_leb (a b : date) : bool :=
  (year a <? year b) ||
  ((year a =? year b) &&
   ((month a <? month b) ||
    ((month a =? month b) && (day a <=? day b)))).

Definition date_eqb (a b : date) : bool :=
  (year a =? year b) && (month a =? month b) && (day a =? day b).

(** Months counted from year 0: the position of a calendar month. *)
Definition month_index (d : date) : Z := 12 * year d + (month d - 1).

Definition month_end (y m : Z) : date := mkDate y m (days_in_month y m).

Definition month_end_of_index (i : Z) : date :=
  month_end (i / 12) (i mod 12 + 1).

(** *** pandas [MonthEnd] offset (freq='M') *)

Definition is_on_offset (d : date) : bool :=
  day d =? days_in_month (year d) (month d).

(** [MonthEnd()._apply(d)]: the first month end strictly after [d]. *)
Definition month_end_apply (d : date) : date :=
  if day d <? days_in_month (year d) (month d)
  then month_end (year d) (month d)
  else if month d =? 12 then month_end (year d + 1) 1
       else month_end (year d) (month d + 1).

Definition rollforward (d : date) : date :=
  if is_on_offset d then d else month_end_apply d.

(** pandas [_generate_range]: [cur = start; while cur <= end: yield cur;
    cur = offset._apply(cur)].  The loop is bounded by its fuel. *)
Fixpoint generate_range (next : date -> date) (fuel : nat)
                        (cur stop : date) : list date :=
  match fuel with
  | O => []
  | S fuel' =>
      if date_leb cur stop
      then cur :: generate_range next fuel' (next cur) stop
      else []
  end.

(** [pd.date_range(start, end, freq='M')]; the fuel is the number of
    calendar months from [start]'s to [stop]'s, both included. *)
Definition date_range_M (start stop : date) : list date :=
  generate_range month_end_apply
    (Z.to_nat (month_index stop - month_index start + 1))
    (rollforward start) stop.

(** *** Days (freq='D') *)

Definition next_day (d : date) : date :=
  if day d <? days_in_month (year d) (month d)
  then mkDate (year d) (month d) (day d + 1)
  else if month d =? 12 then mkDate (year d + 1) 1 1
       else mkDate (year d) (month d + 1) 1.

(** A strictly monotone code of a date: 31 slots per month. *)
Definition day_code (d : date) : Z := 31 * month_index d + (day d - 1).

(** [pd.date_range(start, end, freq='D')] *)
Definition date_range_D (start stop : date) : list date :=
  generate_range next_day
    (Z.to_nat (day_code stop - day_code start + 1)) start stop.

(** *** [dateutil.relativedelta(months=k)] added to a date, [-12 < k < 12]:
    [month += k], one year carried over, the day clipped to the month. *)
Definition add_relativedelta_months (d : date) (k : Z) : date :=
  let m0 := month d + k in
  let y := if 12 <? m0 then year d + 1
           else if m0 <? 1 then year d - 1 else year d in
  let m := if 12 <? m0 then m0 - 12
           else if m0 <? 1 then m0 + 12 else m0 in
  mkDate y m (Z.min (days_in_month y m) (day d)).

End Calendar.
Import Calendar.

(** ** Strings: [%0wd], [str.lower], [str.upper], [sorted] *)

Module Text.

Fixpoint zeros (n : nat) : string :=
  match n with O => "" | S n' => String "0" (zeros n') end.

(** Decimal digits of a natural number, no sign and no padding. *)
Definition digits (n : N) : string := NilZero.string_of_uint (N.to_uint n).

(** ["%0wd" % z] *)
Definition fmt_0d (w : nat) (z : Z) : string :=
  if z <? 0
  then let s := digits (Z.to_N (- z)) in
       "-" ++ zeros (w - 1 - String.length s) ++ s
  else let s := digits (Z.to_N z) in
       zeros (w - String.length s) ++ s.

(** Reading a run of decimal digits back, leading zeros allowed. *)
Definition decode (s : string) : option N :=
  option_map N.of_uint (NilEmpty.uint_of_string s).

Definition lower_ascii (c : ascii) : ascii :=
  let n := nat_of_ascii c in
  if ((65 <=? n) && (n <=? 90))%nat then ascii_of_nat (n + 32) else c.

Definition upper_ascii (c : ascii) : ascii :=
  let n := nat_of_ascii c in
  if ((97 <=? n) && (n <=? 122))%nat then ascii_of_nat (n - 32) else c.

Fixpoint map_string (f : ascii -> ascii) (s : string) : string :=
  match s with
  | EmptyString => EmptyString
  | String c s' => String (f c) (map_string f s')
  end.

Definition lower : string -> string := map_string lower_ascii.
Definition upper : string -> string := map_string upper_ascii.

Definition nl : string := String (ascii_of_nat 10) "".

Section Sorted.
Context {A : Type} (leb : A -> A -> bool).

Fixpoint insert_sorted (x : A) (l : list A) : list A :=
    match l with
    | [] => [x]
    | y :: l' => if leb x y then x :: l else y :: insert_sorted x l'
    end.

  (** [sorted(l)] / [l.sort()] *)
Definition sorted (l : list A) : list A := fold_right insert_sorted [] l.
End Sorted.

End Text.
Import Text.

(** ** Runs: trace of outside calls, and how a run ends *)

Module Run.

(** Values stored in a CDS request mapping. *)
Inductive pyval :=
| VNone
| VStr (s : string)
| VInt (z : Z)
| VStrs (l : list string)
| VInts (l : list Z)
| VDecimals (l : list string).   (* float literals, by their text *)

(** One [cdsapi.Client().retrieve(dataset, params, target)]. *)
Record cds_call := mkCall {
  dataset : string;
  params : list (string * pyval);
  target : string
}.

Inductive event :=
| IsFile (path : string)                        (* os.path.isfile(path) *)
| Input (prompt : string)                       (* input(prompt) *)
| Starmap (workers : Z) (tasks : list cds_call) (* ThreadPool(n) asked to starmap *)
| Retrieve (call : cds_call)                    (* c.retrieve(...) *)
| Glob (pattern : string)                       (* glob.glob(pattern) *)
| Shell (cmd : string).                         (* subprocess.check_output *)

Inductive failure :=
| SysExit (msg : string)          (* sys.exit(msg): msg on stderr, status 1 *)
| KeyError (key : Z)              (* Series label lookup *)
| IndexError                      (* list index out of range *)
| AttributeError (name : string)  (* missing DataFrame column *)
| CalledProcessError (cmd : string)
| ValueError (msg : string)       (* ThreadPool(n) with n < 1 *)
| WorkerRaised (msg : string).    (* what pool.starmap re-raises from a worker *)

(** Exit status of the interpreter when the run ends with [f]. *)
Definition exit_status (f : failure) : Z := 1.

(** [LookupError]: what indexing raises. *)
Definition is_indexing_error (f : failure) : bool :=
  match f with KeyError _ | IndexError => true | _ => false end.

Definition M (A : Type) : Type := (list event * (failure + A))%type.

Definition ret {A} (a : A) : M A := ([], inr a).

Definition bind {A B} (m : M A) (k : A -> M B) : M B :=
  match m with
  | (t, inl f) => (t, inl f)
  | (t, inr a) => let (t', r) := k a in ((t ++ t')%list, r)
  end.

Definition raise {A} (f : failure) : M A := ([], inl f).

Definition emit {A} (e : event) (a : A) : M A := ([e], inr a).

Definition trace {A} (m : M A) : list event := fst m.
Definition outcome {A} (m : M A) : failure + A := snd m.

Fixpoint mapM {A B} (f : A -> M B) (l : list A) : M (list B) :=
  match l with
  | [] => ret []
  | x :: l' =>
      bind (f x) (fun y => bind (mapM f l') (fun ys => ret (y :: ys)))
  end.

End Run.
Import Run.

Notation "x <- m ;; k" := (bind m (fun x => k))
  (at level 61, m at next level, right associativity).
Notation "m ;;; k" := (bind m (fun _ => k))
  (at level 61, right associativity).

(** ** Python containers *)

Module Py.

(** [d.get(k)] on a dict with integer keys. *)
Fixpoint dict_get {V} (d : list (Z * V)) (k : Z) : option V :=
  match d with
  | [] => None
  | (k', v) :: d' => if k =? k' then Some v else dict_get d' k
  end.

(** [s[k]] on a Series with the default index [0 .. len-1]. *)
Definition series_getitem {A} (s : list A) (k : Z) : M A :=
  if (0 <=? k) && (k <? Z.of_nat (List.length s))
  then match nth_error s (Z.to_nat k) with
       | Some a => ret a
       | None => raise (KeyError k)
       end
  else raise (KeyError k).

(** [lst[0]] on a list. *)
Definition list_first {A} (l : list A) : M A :=
  match l with
  | [] => raise IndexError
  | a :: _ => ret a
  end.

(** [set(l)], as a duplicate-free list. *)
Definition set_of (l : list Z) : list Z := nodup Z.eq_dec l.

End Py.
Import Py.

(** ** [retrieve_era5] *)

(** A row of the DataFrame [df], one field per column. *)
Module Row.
Record t := mk {
  dates : date;
  month : Z;
  year : Z;
  target_file : string;
  plevels : option (option (list Z)); (* column only for 'plev'; cell None or a list *)
  file_exist : Z;
  step : Z;
  time_steps : option (list string);
  bbox : string;
  product_type : string
}.
End Row.

Definition time_step_dict : list (Z * list string) :=
  [(1, ["00:00"; "01:00"; "02:00";
        "03:00"; "04:00"; "05:00";
        "06:00"; "07:00"; "08:00";
        "09:00"; "10:00"; "11:00";
        "12:00"; "13:00"; "14:00";
        "15:00"; "16:00"; "17:00";
        "18:00"; "19:00"; "20:00";
        "21:00"; "22:00"; "23:00"]);
   (3, ["00:00"; "03:00"; "06:00"; "09:00"; "12:00"; "15:00"; "18:00"; "21:00"]);
   (6, ["00:00"; "03:00"; "06:00"; "09:00"; "12:00"; "15:00"; "18:00"; "21:00"])].

Definition days_01_31 : list string :=
  ["01"; "02"; "03"; "04"; "05"; "06"; "07"; "08"; "09"; "10"; "11"; "12";
   "13"; "14"; "15"; "16"; "17"; "18"; "19"; "20"; "21"; "22"; "23"; "24";
   "25"; "26"; "27"; "28"; "29"; "30"; "31"].

Definition opt_strs (o : option (list string)) : pyval :=
  match o with Some l => VStrs l | None => VNone end.

Definition opt_ints (o : option (list Z)) : pyval :=
  match o with Some l => VInts l | None => VNone end.

(** The call [era5_request_surf(year, month, bbox, target, product, time)]
    issues. *)
Definition era5_request_surf (year month : Z) (bbox target product : string)
    (time : option (list string)) : cds_call :=
  mkCall "reanalysis-era5-single-levels"
    [("variable",
      VStrs ["geopotential"; "2m_dewpoint_temperature";
             "surface_thermal_radiation_downwards";
             "surface_solar_radiation_downwards";
             "Total precipitation"; "2m_temperature";
             "TOA incident solar radiation";
             "friction_velocity"; "instantaneous_moisture_flux";
             "instantaneous_surface_sensible_heat_flux"]);
     ("product_type", VStr product);
     ("area", VStr bbox);
     ("year", VInt year);
     ("month", VInt month);
     ("day", VStrs days_01_31);
     ("time", opt_strs time);
     ("grid", VDecimals ["0.25"; "0.25"]);
     ("format", VStr "netcdf")]
    target.

(** The call [era5_request_plev(year, month, bbox, target, product, time,
    plevels)] issues. *)
Definition era5_request_plev (year month : Z) (bbox target product : string)
    (time : option (list string)) (plevels : option (list Z)) : cds_call :=
  mkCall "reanalysis-era5-pressure-levels"
    [("product_type", VStr product);
     ("format", VStr "netcdf");
     ("area", VStr bbox);
     ("variable",
      VStrs ["geopotential"; "temperature"; "u_component_of_wind";
             "v_component_of_wind"; "relative_humidity";
             "specific_humidity"]);
     ("pressure_level", opt_ints plevels);
     ("year", VInt year);
     ("month", VInt month);
     ("day", VStrs days_01_31);
     ("time", opt_strs time);
     ("grid", VDecimals ["0.25"; "0.25"])]
    target.

Section RetrieveEra5.

  (** The world: which paths are regular files, what is typed at the
      prompt, and what [pool.starmap] re-raises from its workers, if
      anything, when given these requests. *)
Variable isfile : string -> bool.
Variable ans : string.
Variable pool : list cds_call -> option string.

  (** Arguments; [latN] .. [lonW] are given by their [str()] text. *)
Variables (product : string) (startDate endDate : date) (eraDir : string)
            (latN latS lonE lonW : string) (step : Z) (num_threads : Z)
            (surf_plev : string) (plevels : option (list Z)).

Definition target_name (prefix : string) (x : date) : string :=
    eraDir ++ prefix ++ fmt_0d 4 (Calendar.year x) ++ fmt_0d 2 (Calendar.month x)
           ++ ".nc".

  (** Lines 43-73: the DataFrame [df], column after column. *)
Definition build_frame : M (list Row.t) :=
    let bbox := latN ++ "/" ++ lonW ++ "/" ++ latS ++ "/" ++ lonE in
    let dates := date_range_M startDate endDate in
    cols <- (if surf_plev =? "surf" then
               ret (map (target_name "SURF_") dates, None)
             else if surf_plev =? "plev" then
               let target_file := map (target_name "PLEV_") dates in
               let loc_list := repeat plevels (List.length dates) in
               ret (target_file, Some loc_list)
             else raise (SysExit "ERROR: surf_plev can only be surf or plev"))%string ;;
    let target_file := fst cols in
    file_exist <- mapM (fun x => emit (IsFile x) (if isfile x then 1 else 0))
                       target_file ;;
    ret (map (fun i =>
                let x := nth i dates (mkDate 0 0 0) in
                Row.mk x (Calendar.month x) (Calendar.year x)
                       (nth i target_file "")
                       (match snd cols with
                        | Some loc_list => Some (nth i loc_list None)
                        | None => None
                        end)
                       (nth i file_exist 0)
                       step
                       (dict_get time_step_dict step)
                       bbox
                       product)
             (seq 0 (List.length dates))).

Definition row_plevels (r : Row.t) : M (option (list Z)) :=
    match Row.plevels r with
    | Some p => ret p
    | None => raise (AttributeError "plevels")
    end.

  (** Lines 94-102 and 104-113: [ThreadPool(num_threads)], [starmap],
      [close], [join].  The pool is asked for the tasks; fewer than one
      worker is refused with [ValueError], and [starmap] re-raises what a
      worker raised. *)
Definition run_pool (tasks : list cds_call) : M unit :=
    emit (Starmap num_threads tasks) tt ;;;
    if num_threads <? 1 then
      raise (ValueError "Number of processes must be at least 1")
    else match pool tasks with
         | Some msg => raise (WorkerRaised msg)
         | None => ret tt
         end.

  (** Lines 75-117: the two reported dates, the pending rows, the prompt
      and the pool. *)
Definition report_and_fetch (df : list Row.t) : M unit :=
    series_getitem (map Row.dates df) 0 ;;;
    series_getitem (map Row.dates df) (Z.of_nat (List.length df) - 1) ;;;
    let download := filter (fun r => Row.file_exist r =? 0) df in
    if 0 <? Z.of_nat (List.length download) then
      a <- emit (Input ("---> Download ERA5 " ++ upper surf_plev ++ " data? (y/n)")) ans ;;
      if ((lower a =? "y") || (a =? "1"))%string then
        if (surf_plev =? "surf")%string then
          run_pool
            (map (fun r => era5_request_surf (Row.year r) (Row.month r)
                             (Row.bbox r) (Row.target_file r)
                             (Row.product_type r) (Row.time_steps r))
                 download)
        else if (surf_plev =? "plev")%string then
          tasks <- mapM (fun r =>
                     p <- row_plevels r ;;
                     ret (era5_request_plev (Row.year r) (Row.month r)
                            (Row.bbox r) (Row.target_file r)
                            (Row.product_type r) (Row.time_steps r) p))
                   download ;;
          run_pool tasks
        else raise (SysExit "ERROR: surf_plev can only be surf or plev")
      else
        raise (SysExit ("ERROR: Some forcing files are missing given the date range provided"
                        ++ nl ++ " ---> or implement a method to modify start/end date of project to file available"))
    else ret tt.

Definition retrieve_era5 : M unit :=
    df <- build_frame ;;
    report_and_fetch df.

End RetrieveEra5.

(** ** [eraCat] and [eraCat5d] *)

Section Merge.

  (** The world: what a glob pattern matches, and whether a shell command
      exits with status zero. *)
Variable glob : string -> list string.
Variable sh : string -> bool.

Definition check_output (cmd : string) : M unit :=
    emit (Shell cmd) tt ;;;
    if sh cmd then ret tt else raise (CalledProcessError cmd).

Definition eraCat (wd grepStr : string) : M unit :=
    let cmd := "cdo -b F64 -f nc2 mergetime " ++ wd ++ grepStr ++ "* "
               ++ wd ++ "/" ++ grepStr ++ ".nc" in
    check_output cmd.

Definition eraCat5d (wd grepStr : string) : M unit :=
    lst <- emit (Glob (wd ++ grepStr ++ "*")) (glob (wd ++ grepStr ++ "*")) ;;
    let lst := sorted String.leb lst in
    firstfile <- list_first lst ;;
    let cmd := "ncks -O --mk_rec_dmn time " ++ firstfile ++ " " ++ firstfile in
    check_output cmd ;;;
    let cmd := "ncrcat " ++ grepStr ++ "*" ++ " " ++ grepStr ++ ".nc" in
    check_output cmd.

End Merge.

(** ** [retrieve_era5_tpmm] *)


Definition tpmm_start (startDate : date) : date :=
  add_relativedelta_months startDate (-1).

Definition tpmm_end (endDate : date) : date :=
  add_relativedelta_months endDate 1.

Definition tpmm_years (startDate endDate : date) : list Z :=
  let dateList := date_range_D (tpmm_start startDate) (tpmm_end endDate) in
  let yearVec := map Calendar.year dateList in
  sorted Z.leb (set_of yearVec).


(** ** The claims' vocabulary *)

Module Spec.

(** [i; i+1; ...], [n] consecutive integers. *)
Fixpoint zrange (i : Z) (n : nat) : list Z :=
  match n with
  | O => []
  | S n' => i :: zrange (i + 1) n'
  end.

(** (year, month) of a month position. *)
Definition ym_of_index (i : Z) : Z * Z := (i / 12, i mod 12 + 1).

(** Every calendar month from [s]'s to [e]'s, both included. *)
Definition months_in_span (s e : date) : list (Z * Z) :=
  map ym_of_index
      (zrange (month_index s) (Z.to_nat (month_index e - month_index s + 1))).

(** Position of the last month whose last day is not after [e]. *)
Definition last_ended_index (e : date) : Z :=
  if is_on_offset e then month_index e else month_index e - 1.

(** Every calendar month from [s]'s on whose last day is not after [e]. *)
Definition months_ended_in_span (s e : date) : list (Z * Z) :=
  map ym_of_index
      (zrange (month_index s)
              (Z.to_nat (last_ended_index e - month_index s + 1))).

Definition hour_mark (h : Z) : string := fmt_0d 2 h ++ ":00".

(** '00:00' .. '23:00' *)
Definition hourly_marks : list string := map hour_mark (zrange 0 24).

(** '00:00', '03:00', .. '21:00' *)
Definition three_hourly_marks : list string :=
  map (fun k => hour_mark (3 * k)) (zrange 0 8).

Definition marks_for_step (step : Z) : list string :=
  if step =? 1 then hourly_marks else three_hourly_marks.


Definition plan_months (df : list Row.t) : list (Z * Z) :=
  map (fun r => (Row.year r, Row.month r)) df.

(** The rows of a frame that was built, none when the run ended before. *)
Definition rows_of (m : M (list Row.t)) : list Row.t :=
  match outcome m with inr df => df | inl _ => [] end.


Definition is_check (e : event) : bool :=
  match e with IsFile _ => true | _ => false end.
Definition is_prompt (e : event) : bool :=
  match e with Input _ => true | _ => false end.
Definition is_pool (e : event) : bool :=
  match e with Starmap _ _ => true | _ => false end.
Definition is_network (e : event) : bool :=
  match e with Starmap _ _ | Retrieve _ => true | _ => false end.
Definition is_shell (e : event) : bool :=
  match e with Shell _ => true | _ => false end.

(** The row the frame holds for the month ending on [x]. *)
Definition row_of (isfile : string -> bool) (product eraDir bbox : string)
    (step : Z) (prefix : string) (cell : option (option (list Z)))
    (x : date) : Row.t :=
  Row.mk x (Calendar.month x) (Calendar.year x)
         (target_name eraDir prefix x) cell
         (if isfile (target_name eraDir prefix x) then 1 else 0)
         step (dict_get time_step_dict step) bbox product.

(** The claim "one descriptor per calendar month of the span". *)
Definition covers_span_months (frame : M (list Row.t)) (s e : date) : Prop :=
  plan_months (rows_of frame) = months_in_span s e.

(** A run that ends with a failure, as an input error would. *)
Definition fails {A} (m : M A) : Prop := exists f, outcome m = inl f.

(** The prompt, the message of a declined download, and the test on the
    answer, as lines 91, 117 and 92 write them. *)
Definition prompt_of (surf_plev : string) : string :=
  "---> Download ERA5 " ++ upper surf_plev ++ " data? (y/n)".

Definition declined_msg : string :=
  "ERROR: Some forcing files are missing given the date range provided"
  ++ nl ++ " ---> or implement a method to modify start/end date of project to file available".

Definition gate (a : string) : bool :=
  ((lower a =? "y") || (a =? "1"))%string.

Definition pending (df : list Row.t) : list Row.t :=
  filter (fun r => Row.file_exist r =? 0) df.

Definition surf_task (r : Row.t) : cds_call :=
  era5_request_surf (Row.year r) (Row.month r) (Row.bbox r)
                    (Row.target_file r) (Row.product_type r)
                    (Row.time_steps r).

Definition plev_task (p : option (list Z)) (r : Row.t) : cds_call :=
  era5_request_plev (Row.year r) (Row.month r) (Row.bbox r)
                    (Row.target_file r) (Row.product_type r)
                    (Row.time_steps r) p.

(** The rows still to fetch of a frame, none when it was not built. *)
Definition pending_of (m : M (list Row.t)) : list Row.t :=
  pending (rows_of m).

(** How a pool of [n] workers given [tasks] ends. *)
Definition pool_outcome (pool : list cds_call -> option string) (n : Z)
    (tasks : list cds_call) : failure + unit :=
  if n <? 1 then inl (ValueError "Number of processes must be at least 1")
  else match pool tasks with
       | Some msg => inl (WorkerRaised msg)
       | None => inr tt
       end.

(** How lines 75-117 end on the frame [df], given the pool's tasks. *)
Definition fetch_result (ans : string)
    (pool : list cds_call -> option string) (num_threads : Z)
    (surf_plev : string) (tasks : list cds_call) (df : list Row.t)
    : M unit :=
  match df with
  | [] => ([], inl (KeyError 0))
  | _ :: _ =>
      match pending df with
      | [] => ([], inr tt)
      | _ :: _ =>
          if gate ans
          then ([Input (prompt_of surf_plev); Starmap num_threads tasks],
                pool_outcome pool num_threads tasks)
          else ([Input (prompt_of surf_plev)], inl (SysExit declined_msg))
      end
  end.

Definition raises_indexing_error {A} (m : M A) : Prop :=
  exists f, outcome m = inl f /\ is_indexing_error f = true.

(** Day and month in range, whatever the year. *)
Definition wf_date (d : date) : Prop :=
  1 <= Calendar.month d <= 12 /\
  1 <= day d <= days_in_month (Calendar.year d) (Calendar.month d).

Definition within (s e d : date) : Prop :=
  date_leb s d = true /\ date_leb d e = true.

(** The merge command the claim describes for [eraCat5d]: everything in
    [wd]. *)
Definition ncrcat_in_wd (wd grepStr : string) : string :=
  "ncrcat " ++ wd ++ grepStr ++ "*" ++ " " ++ wd ++ grepStr ++ ".nc".

(** Chronological order of (year, month) pairs. *)
Definition ym_lt (a b : Z * Z) : Prop :=
  12 * fst a + snd a < 12 * fst b + snd b.

(** No month ends within [s .. e]. *)
Definition no_month_end (s e : date) : Prop :=
  forall d, wf_date d -> is_on_offset d = true -> ~ within s e d.

End Spec.
Import Spec.

Arguments prompt_of : simpl never.
Arguments declined_msg : simpl never.

(** ** The console and log report (lines 78-86) *)

Module Report.

(** [s.split(sep)] for a one-character separator; never empty. *)
Fixpoint split_on (sep : ascii) (s : string) : list string :=
  match s with
  | EmptyString => [EmptyString]
  | String a s' =>
      match split_on sep s' with
      | [] => [EmptyString]
      | w :: ws =>
          if Ascii.eqb a sep then EmptyString :: w :: ws
          else String a w :: ws
      end
  end.

(** [x.split('/')[-1]] *)
Definition last_component (x : string) : string :=
  last (split_on "/" x) EmptyString.

(** [df.target_file.loc[df.file_exist == v]]: the values logged on lines
    79 and 81. *)
Definition logged (v : Z) (df : list Row.t) : list string :=
  map Row.target_file (filter (fun r => Row.file_exist r =? v) df).

(** The values printed on lines 84 and 86: the same with
    [.apply(lambda x: x.split('/')[-1])]. *)
Definition printed (v : Z) (df : list Row.t) : list string :=
  map last_component (logged v df).

End Report.
Import Report.

(** ** Vocabulary of the further properties *)

Module Derived.

Definition prefix_of (surf_plev : string) : string :=
  if (surf_plev =? "surf")%string then "SURF_" else "PLEV_".

Definition known_kind (surf_plev : string) : Prop :=
  surf_plev = "surf" \/ surf_plev = "plev".

(** The months of the plan whose file is not on disk. *)
Definition missing (isfile : string -> bool) (eraDir prefix : string)
    (dates : list date) : list date :=
  filter (fun x => negb (isfile (target_name eraDir prefix x))) dates.

(** The request a worker makes for the month ending on [x]. *)
Definition request_of (surf_plev : string) (plevels : option (list Z))
    (bbox product : string) (step : Z) (eraDir : string) (x : date)
    : cds_call :=
  if (surf_plev =? "surf")%string then
    era5_request_surf (Calendar.year x) (Calendar.month x) bbox
      (target_name eraDir "SURF_" x) product (dict_get time_step_dict step)
  else
    era5_request_plev (Calendar.year x) (Calendar.month x) bbox
      (target_name eraDir "PLEV_" x) product (dict_get time_step_dict step)
      plevels.

(** The requests handed to worker pools in a trace. *)
Definition pool_tasks (t : list event) : list cds_call :=
  List.concat (map (fun ev => match ev with
                              | Starmap _ tasks => tasks
                              | _ => []
                              end) t).

(** [params[k]] of a request. *)
Definition param (c : cds_call) (k : string) : option pyval :=
  option_map snd (find (fun kv => (fst kv =? k)%string) (params c)).

Fixpoint no_slash (s : string) : bool :=
  match s with
  | EmptyString => true
  | String a s' => negb (Ascii.eqb a "/") && no_slash s'
  end.

(** The file name of a month: prefix, YYYYMM, ".nc". *)
Definition month_file (prefix : string) (x : date) : string :=
  prefix ++ fmt_0d 4 (Calendar.year x) ++ fmt_0d 2 (Calendar.month x) ++ ".nc".

Definition kind_msg : string := "ERROR: surf_plev can only be surf or plev".

(** The run asked a pool for something. *)
Definition uses_pool {A} (m : M A) : bool := existsb is_pool (trace m).


(** Whether lines 59-92 lead to the pool: a known kind, a file of the
    plan missing, and an accepted answer. *)
Definition reaches_pool (isfile : string -> bool) (ans : string)
    (s e : date) (eraDir surf_plev : string) : bool :=
  ((surf_plev =? "surf") || (surf_plev =? "plev"))%string
  && match missing isfile eraDir (prefix_of surf_plev) (date_range_M s e) with
     | [] => false
     | _ :: _ => gate ans
     end.

(** A run that does not lead to the pool: its checks, its prompt if a file
    is missing, and how it ends. *)
Definition quiet_run (isfile : string -> bool) (ans : string)
    (s e : date) (eraDir surf_plev : string) : M unit :=
  if ((surf_plev =? "surf") || (surf_plev =? "plev"))%string then
    let dates := date_range_M s e in
    let prefix := prefix_of surf_plev in
    ((map IsFile (map (target_name eraDir prefix) dates)
      ++ match missing isfile eraDir prefix dates with
         | [] => []
         | _ :: _ => [Input (prompt_of surf_plev)]
         end)%list,
     match dates with
     | [] => inl (KeyError 0)
     | _ :: _ =>
         match missing isfile eraDir prefix dates with
         | [] => inr tt
         | _ :: _ => inl (SysExit declined_msg)
         end
     end)
  else ([], inl (SysExit kind_msg)).

(** The [ncks] command of [eraCat5d] on the file [f]. *)
Definition ncks_cmd (f : string) : string :=
  "ncks -O --mk_rec_dmn time " ++ f ++ " " ++ f.

End Derived.
Import Derived.

Arguments kind_msg : simpl never.

(** * Properties *)

(** ** Calendar facts *)

Ltac leb_iff := apply Bool.eq_iff_eq_true; rewrite !Z.leb_le.

Lemma days_in_month_bounds y m : 28 <= days_in_month y m <= 31.
Proof.
  unfold days_in_month.
  destruct (m =? 2); [destruct (is_leap y); lia|].
  destruct ((m =? 4) || (m =? 6) || (m =? 9) || (m =? 11)); lia.
Qed.

Lemma valid_date_inv d :
  valid_date d ->
  1678 <= Calendar.year d <= 2261 /\ wf_date d.
Proof.
  unfold valid_date, valid_dateb, wf_date. intros H.
  repeat (apply andb_prop in H; destruct H as [H ?]). lia.
Qed.

Lemma valid_date_intro d :
  1678 <= Calendar.year d <= 2261 -> wf_date d -> valid_date d.
Proof.
  unfold valid_date, valid_dateb, wf_date. intros ? [? ?].
  repeat (apply andb_true_intro; split); lia.
Qed.

(** On well-formed dates the order is the order of the day codes. *)
Lemma date_leb_code a b :
  wf_date a -> wf_date b ->
  date_leb a b = (day_code a <=? day_code b).
Proof.
  intros [Ha1 Ha2] [Hb1 Hb2].
  pose proof (days_in_month_bounds (Calendar.year a) (Calendar.month a)).
  pose proof (days_in_month_bounds (Calendar.year b) (Calendar.month b)).
  unfold date_leb, day_code, month_index.
  destruct (Z.ltb_spec (Calendar.year a) (Calendar.year b));
  destruct (Z.eqb_spec (Calendar.year a) (Calendar.year b));
  destruct (Z.ltb_spec (Calendar.month a) (Calendar.month b));
  destruct (Z.eqb_spec (Calendar.month a) (Calendar.month b));
  destruct (Z.leb_spec (day a) (day b)); cbn [orb andb]; symmetry;
  first [apply Z.leb_le | apply Z.leb_gt]; lia.
Qed.

Lemma wf_month_end_of_index i : wf_date (month_end_of_index i).
Proof.
  unfold wf_date, month_end_of_index, month_end; cbn [Calendar.year Calendar.month day].
  pose proof (days_in_month_bounds (i / 12) (i mod 12 + 1)). lia.
Qed.

Lemma month_index_month_end_of_index i :
  month_index (month_end_of_index i) = i.
Proof. unfold month_index, month_end_of_index, month_end; cbn [Calendar.year Calendar.month day]. lia. Qed.

Lemma month_end_of_month_index d :
  1 <= Calendar.month d <= 12 ->
  month_end_of_index (month_index d)
  = month_end (Calendar.year d) (Calendar.month d).
Proof.
  intros H. unfold month_end_of_index, month_index.
  replace ((12 * Calendar.year d + (Calendar.month d - 1)) / 12)
    with (Calendar.year d) by lia.
  replace ((12 * Calendar.year d + (Calendar.month d - 1)) mod 12 + 1)
    with (Calendar.month d) by lia.
  reflexivity.
Qed.

Lemma month_end_apply_index i :
  month_end_apply (month_end_of_index i) = month_end_of_index (i + 1).
Proof.
  unfold month_end_apply, month_end_of_index, month_end; cbn [Calendar.year Calendar.month day].
  rewrite Z.ltb_irrefl.
  destruct (i mod 12 + 1 =? 12) eqn:E.
  - apply Z.eqb_eq in E.
    replace ((i + 1) / 12) with (i / 12 + 1) by lia.
    replace ((i + 1) mod 12 + 1) with 1 by lia. reflexivity.
  - apply Z.eqb_neq in E.
    replace ((i + 1) / 12) with (i / 12) by lia.
    replace ((i + 1) mod 12 + 1) with (i mod 12 + 1 + 1) by lia. reflexivity.
Qed.

Lemma rollforward_index s :
  wf_date s -> rollforward s = month_end_of_index (month_index s).
Proof.
  intros [Hm Hd]. rewrite month_end_of_month_index by assumption.
  unfold rollforward, is_on_offset, month_end_apply.
  destruct (day s =? days_in_month (Calendar.year s) (Calendar.month s)) eqn:E.
  - apply Z.eqb_eq in E. destruct s; cbn [Calendar.year Calendar.month day] in *. unfold month_end. congruence.
  - apply Z.eqb_neq in E.
    destruct (day s <? days_in_month (Calendar.year s) (Calendar.month s)) eqn:E2;
      [reflexivity | apply Z.ltb_ge in E2; lia].
Qed.

(** A month ends on or before [e] exactly up to [last_ended_index e]. *)
Lemma month_end_leb_index j e :
  wf_date e ->
  date_leb (month_end_of_index j) e = (j <=? last_ended_index e).
Proof.
  intros He. rewrite date_leb_code by (auto using wf_month_end_of_index).
  destruct He as [Hm Hd].
  pose proof (days_in_month_bounds (j / 12) (j mod 12 + 1)) as Hb.
  pose proof (days_in_month_bounds (Calendar.year e) (Calendar.month e)) as Hb'.
  unfold last_ended_index, is_on_offset.
  destruct (day e =? days_in_month (Calendar.year e) (Calendar.month e)) eqn:E.
  - apply Z.eqb_eq in E.
    destruct (Z.eq_dec j (month_index e)) as [->|Hne].
    + rewrite month_end_of_month_index by assumption.
      unfold day_code, month_index, month_end; cbn [Calendar.year Calendar.month day].
      rewrite E. leb_iff; lia.
    + unfold day_code. rewrite month_index_month_end_of_index.
      unfold month_end_of_index, month_end; cbn [Calendar.year Calendar.month day].
      leb_iff; lia.
  - apply Z.eqb_neq in E.
    destruct (Z.eq_dec j (month_index e)) as [->|Hne].
    + rewrite month_end_of_month_index by assumption.
      unfold day_code, month_index, month_end; cbn [Calendar.year Calendar.month day].
      leb_iff; lia.
    + unfold day_code. rewrite month_index_month_end_of_index.
      unfold month_end_of_index, month_end; cbn [Calendar.year Calendar.month day].
      leb_iff; lia.
Qed.

(** A month ends on or after [s] exactly from [s]'s own month on. *)
Lemma leb_month_end_index s j :
  wf_date s ->
  date_leb s (month_end_of_index j) = (month_index s <=? j).
Proof.
  intros Hs. rewrite date_leb_code by (auto using wf_month_end_of_index).
  destruct Hs as [Hm Hd].
  pose proof (days_in_month_bounds (Calendar.year s) (Calendar.month s)) as Hb'.
  destruct (Z.eq_dec j (month_index s)) as [->|Hne].
  - rewrite month_end_of_month_index by assumption.
    unfold day_code, month_index, month_end; cbn [Calendar.year Calendar.month day].
    leb_iff; lia.
  - pose proof (days_in_month_bounds (j / 12) (j mod 12 + 1)) as Hb.
    unfold day_code. rewrite month_index_month_end_of_index.
    unfold month_end_of_index, month_end; cbn [Calendar.year Calendar.month day].
    leb_iff; lia.
Qed.

(** ** Integer ranges *)

Lemma zrange_length i n : List.length (zrange i n) = n.
Proof. revert i; induction n; intros; simpl; auto. Qed.

Lemma in_zrange i n x :
  In x (zrange i n) <-> i <= x < i + Z.of_nat n.
Proof.
  revert i; induction n as [|n IH]; intros i.
  - simpl. lia.
  - cbn [zrange In]. rewrite IH. lia.
Qed.

Lemma zrange_sorted i n : StronglySorted Z.lt (zrange i n).
Proof.
  revert i; induction n as [|n IH]; intros i; simpl; constructor; auto.
  apply Forall_forall. intros x Hx. apply in_zrange in Hx. lia.
Qed.

Lemma zrange_nodup i n : NoDup (zrange i n).
Proof.
  revert i; induction n as [|n IH]; intros i; simpl; constructor; auto.
  rewrite in_zrange. lia.
Qed.

(** ** The month-end range in closed form *)

Lemma generate_range_month_ends e :
  wf_date e ->
  forall fuel i,
    last_ended_index e - i + 1 <= Z.of_nat fuel ->
    generate_range month_end_apply fuel (month_end_of_index i) e
    = map month_end_of_index
          (zrange i (Z.to_nat (last_ended_index e - i + 1))).
Proof.
  intros He. induction fuel as [|fuel IH]; intros i Hf.
  - replace (Z.to_nat (last_ended_index e - i + 1)) with O by lia.
    reflexivity.
  - cbn [generate_range]. rewrite month_end_leb_index by assumption.
    destruct (Z.leb_spec i (last_ended_index e)) as [Hle|Hgt].
    + replace (Z.to_nat (last_ended_index e - i + 1))
        with (S (Z.to_nat (last_ended_index e - (i + 1) + 1))) by lia.
      cbn [zrange map]. rewrite month_end_apply_index, IH by lia.
      reflexivity.
    + replace (Z.to_nat (last_ended_index e - i + 1)) with O by lia.
      reflexivity.
Qed.

Lemma last_ended_index_le e : last_ended_index e <= month_index e.
Proof. unfold last_ended_index. destruct (is_on_offset e); lia. Qed.

(** [pd.date_range(s, e, freq='M')] is the list of the ends of the months
    from [s]'s own up to the last one that ends by [e]. *)
Lemma date_range_M_closed s e :
  wf_date s -> wf_date e ->
  date_range_M s e
  = map month_end_of_index
        (zrange (month_index s)
                (Z.to_nat (last_ended_index e - month_index s + 1))).
Proof.
  intros Hs He. unfold date_range_M. rewrite rollforward_index by assumption.
  apply generate_range_month_ends; [assumption|].
  pose proof (last_ended_index_le e). lia.
Qed.

(** The dates of the range are exactly the month ends within [s .. e]. *)
Lemma in_date_range_M s e d :
  wf_date s -> wf_date e ->
  In d (date_range_M s e) <->
  exists i, d = month_end_of_index i /\ within s e d.
Proof.
  intros Hs He. rewrite date_range_M_closed by assumption.
  rewrite in_map_iff. unfold within. split.
  - intros (i & <- & Hi). apply in_zrange in Hi. exists i. split; [reflexivity|].
    rewrite leb_month_end_index, month_end_leb_index by assumption.
    split; apply Z.leb_le; lia.
  - intros (i & -> & H1 & H2).
    rewrite leb_month_end_index in H1 by assumption.
    rewrite month_end_leb_index in H2 by assumption.
    apply Z.leb_le in H1, H2.
    exists i. split; [reflexivity|]. apply in_zrange. lia.
Qed.

(** ** The daily range *)

Lemma wf_next_day d : wf_date d -> wf_date (next_day d).
Proof.
  intros [Hm Hd]. unfold next_day, wf_date.
  destruct (Z.ltb_spec (day d) (days_in_month (Calendar.year d) (Calendar.month d))).
  - cbn [Calendar.year Calendar.month day]. lia.
  - destruct (Z.eqb_spec (Calendar.month d) 12);
      cbn [Calendar.year Calendar.month day];
      match goal with
      | |- context [days_in_month ?y ?m] =>
          pose proof (days_in_month_bounds y m)
      end; lia.
Qed.

Lemma day_code_next_day d :
  wf_date d -> day_code d < day_code (next_day d).
Proof.
  intros [Hm Hd].
  pose proof (days_in_month_bounds (Calendar.year d) (Calendar.month d)).
  unfold next_day, day_code, month_index.
  destruct (Z.ltb_spec (day d) (days_in_month (Calendar.year d) (Calendar.month d))).
  - cbn [Calendar.year Calendar.month day]. lia.
  - destruct (Z.eqb_spec (Calendar.month d) 12);
      cbn [Calendar.year Calendar.month day]; lia.
Qed.

(** No well-formed date lies strictly between a day and the next. *)
Lemma next_day_least a d :
  wf_date a -> wf_date d ->
  day_code a < day_code d -> day_code (next_day a) <= day_code d.
Proof.
  intros [Hm Hd] [Hm' Hd'].
  pose proof (days_in_month_bounds (Calendar.year a) (Calendar.month a)).
  pose proof (days_in_month_bounds (Calendar.year d) (Calendar.month d)).
  unfold next_day, day_code, month_index.
  destruct (Z.ltb_spec (day a) (days_in_month (Calendar.year a) (Calendar.month a))).
  - cbn [Calendar.year Calendar.month day]. lia.
  - assert (day a = days_in_month (Calendar.year a) (Calendar.month a)) as Ea by lia.
    destruct (Z.eqb_spec (Calendar.month a) 12);
      cbn [Calendar.year Calendar.month day]; intros Hlt.
    + destruct (Z.eq_dec (Calendar.year a) (Calendar.year d)) as [Ey|Ey];
      [destruct (Z.eq_dec (Calendar.month a) (Calendar.month d)) as [Em|Em]|];
      [rewrite <- Ey, <- Em in Hd'| |]; lia.
    + destruct (Z.eq_dec (Calendar.year a) (Calendar.year d)) as [Ey|Ey];
      [destruct (Z.eq_dec (Calendar.month a) (Calendar.month d)) as [Em|Em]|];
      [rewrite <- Ey, <- Em in Hd'| |]; lia.
Qed.

Lemma day_code_inj a b :
  wf_date a -> wf_date b -> day_code a = day_code b -> a = b.
Proof.
  intros [Hm Hd] [Hm' Hd'].
  pose proof (days_in_month_bounds (Calendar.year a) (Calendar.month a)).
  pose proof (days_in_month_bounds (Calendar.year b) (Calendar.month b)).
  unfold day_code, month_index. intros E.
  destruct a as [ya ma da], b as [yb mb db];
    cbn [Calendar.year Calendar.month day] in *.
  assert (ya = yb) by lia. assert (ma = mb) by lia. assert (da = db) by lia.
  congruence.
Qed.

Lemma date_leb_iff a b :
  wf_date a -> wf_date b ->
  date_leb a b = true <-> day_code a <= day_code b.
Proof. intros. rewrite date_leb_code by assumption. apply Z.leb_le. Qed.

(** The daily range holds exactly the well-formed dates within it. *)
Lemma in_generate_range_days e :
  wf_date e ->
  forall fuel cur d,
    wf_date cur ->
    day_code e - day_code cur + 1 <= Z.of_nat fuel ->
    (In d (generate_range next_day fuel cur e) <->
     wf_date d /\ within cur e d).
Proof.
  intros He. unfold within.
  induction fuel as [|fuel IH]; intros cur d Hc Hf.
  - cbn [generate_range In]. split; [tauto|].
    intros (Hd & H1 & H2).
    apply date_leb_iff in H1, H2; try assumption. lia.
  - cbn [generate_range].
    pose proof (day_code_next_day cur Hc) as Hn.
    pose proof (wf_next_day cur Hc) as Hw.
    rewrite (date_leb_code cur e) by assumption.
    destruct (Z.leb_spec (day_code cur) (day_code e)) as [Hle|Hgt].
    + cbn [In]. rewrite IH by (assumption || lia). split.
      * intros [<-|(Hd & H1 & H2)].
        -- split; [assumption|].
           rewrite !date_leb_iff by assumption. lia.
        -- split; [assumption|].
           apply date_leb_iff in H1, H2; try assumption.
           rewrite !date_leb_iff by assumption. lia.
      * intros (Hd & H1 & H2).
        apply date_leb_iff in H1, H2; try assumption.
        destruct (Z.eq_dec (day_code cur) (day_code d)) as [E|E].
        -- left. apply day_code_inj; assumption.
        -- right. split; [assumption|].
           pose proof (next_day_least cur d Hc Hd ltac:(lia)).
           rewrite !date_leb_iff by assumption. lia.
    + cbn [In]. split; [tauto|].
      intros (Hd & H1 & H2).
      apply date_leb_iff in H1, H2; try assumption. lia.
Qed.

Lemma in_date_range_D s e d :
  wf_date s -> wf_date e ->
  In d (date_range_D s e) <-> wf_date d /\ within s e d.
Proof.
  intros Hs He. unfold date_range_D.
  apply in_generate_range_days; [assumption..|]. lia.
Qed.

(** ** Strings *)

Lemma append_inv_head (a b c : string) : a ++ b = a ++ c -> b = c.
Proof. induction a as [|x a IH]; simpl; intros H; [assumption|]. injection H. auto. Qed.

Lemma append_length_split (a a' b b' : string) :
  String.length a = String.length a' ->
  a ++ b = a' ++ b' -> a = a' /\ b = b'.
Proof.
  revert a'. induction a as [|x a IH]; intros [|x' a']; simpl;
    try discriminate; intros Hl H; [auto|].
  injection Hl as Hl. injection H as -> H.
  destruct (IH _ Hl H) as [-> ->]. auto.
Qed.

Lemma decode_digits n : decode (digits n) = Some n.
Proof.
  unfold digits, decode.
  pose proof (DecimalN.Unsigned.of_to n) as E.
  remember (N.to_uint n) as u eqn:Hu. clear Hu. subst n.
  destruct u; [reflexivity|..];
    match goal with
    | |- context [NilZero.string_of_uint ?d] =>
        change (NilZero.string_of_uint d) with (NilEmpty.string_of_uint d)
    end;
    rewrite NilEmpty.usu; reflexivity.
Qed.

Lemma decode_zeros k s : decode (zeros k ++ s) = decode s.
Proof.
  induction k as [|k IH]; [reflexivity|].
  unfold decode in *. cbn [zeros append NilEmpty.uint_of_string].
  destruct (NilEmpty.uint_of_string (zeros k ++ s)) as [u|];
    destruct (NilEmpty.uint_of_string s) as [u'|];
    cbn in *; unfold N.of_uint in *; congruence.
Qed.

Lemma decode_fmt_0d w z : 0 <= z -> decode (fmt_0d w z) = Some (Z.to_N z).
Proof.
  intros Hz. unfold fmt_0d.
  destruct (Z.ltb_spec z 0); [lia|].
  rewrite decode_zeros. apply decode_digits.
Qed.

Lemma fmt_0d_inj w z z' :
  0 <= z -> 0 <= z' -> fmt_0d w z = fmt_0d w z' -> z = z'.
Proof.
  intros Hz Hz' E. apply (f_equal decode) in E.
  rewrite !decode_fmt_0d in E by assumption.
  injection E as E. lia.
Qed.

Lemma fmt_year_length y :
  1678 <= y <= 2261 -> String.length (fmt_0d 4 y) = 4%nat.
Proof.
  intros Hy.
  assert (forallb (fun y => Nat.eqb (String.length (fmt_0d 4 y)) 4)
                  (zrange 1678 584) = true) as H by (vm_compute; reflexivity).
  rewrite forallb_forall in H. apply Nat.eqb_eq, H, in_zrange. lia.
Qed.

Lemma fmt_month_length m :
  1 <= m <= 12 -> String.length (fmt_0d 2 m) = 2%nat.
Proof.
  intros Hm.
  assert (forallb (fun m => Nat.eqb (String.length (fmt_0d 2 m)) 2)
                  (zrange 1 12) = true) as H by (vm_compute; reflexivity).
  rewrite forallb_forall in H. apply Nat.eqb_eq, H, in_zrange. lia.
Qed.

(** The file name of a month determines the month. *)
Lemma target_name_inj eraDir prefix x x' :
  1678 <= Calendar.year x <= 2261 -> 1 <= Calendar.month x <= 12 ->
  1678 <= Calendar.year x' <= 2261 -> 1 <= Calendar.month x' <= 12 ->
  target_name eraDir prefix x = target_name eraDir prefix x' ->
  Calendar.year x = Calendar.year x' /\ Calendar.month x = Calendar.month x'.
Proof.
  intros Hy Hm Hy' Hm' E. unfold target_name in E.
  apply append_inv_head, append_inv_head in E.
  apply append_length_split in E;
    [|rewrite !fmt_year_length by assumption; reflexivity].
  destruct E as [Ey E].
  apply append_length_split in E;
    [|rewrite !fmt_month_length by assumption; reflexivity].
  destruct E as [Em _].
  split; eapply fmt_0d_inj; try eassumption; lia.
Qed.




(** ** [sorted] *)

Section SortedFacts.
Context {A : Type} (leb : A -> A -> bool).
Hypothesis leb_total : forall x y, leb x y = true \/ leb y x = true.
Hypothesis leb_trans :
    forall x y z, leb x y = true -> leb y z = true -> leb x z = true.

Lemma in_insert_sorted x y l :
    In y (insert_sorted leb x l) <-> y = x \/ In y l.
  Proof.
    induction l as [|z l IH]; cbn [insert_sorted In]; [intuition|].
    destruct (leb x z); cbn [In]; rewrite ?IH; intuition.
  Qed.

Lemma in_sorted y l : In y (sorted leb l) <-> In y l.
  Proof.
    induction l as [|x l IH]; [reflexivity|].
    cbn [sorted fold_right In]. fold (sorted leb l).
    rewrite in_insert_sorted, IH. intuition.
  Qed.

Lemma insert_sorted_sorted x l :
    StronglySorted (fun a b => leb a b = true) l ->
    StronglySorted (fun a b => leb a b = true) (insert_sorted leb x l).
  Proof.
    induction 1 as [|z l Hs IH Hz]; cbn [insert_sorted].
    - repeat constructor.
    - destruct (leb x z) eqn:E.
      + constructor; [constructor; assumption|].
        constructor; [assumption|].
        eapply Forall_impl; [|exact Hz]. intros; eauto.
      + constructor; [assumption|].
        apply Forall_forall. intros y Hy.
        apply in_insert_sorted in Hy. destruct Hy as [->|Hy].
        * destruct (leb_total x z); congruence.
        * rewrite Forall_forall in Hz. auto.
  Qed.

Lemma sorted_sorted l :
    StronglySorted (fun a b => leb a b = true) (sorted leb l).
  Proof.
    induction l as [|x l IH]; [constructor|].
    cbn [sorted fold_right]. apply insert_sorted_sorted, IH.
  Qed.

Lemma insert_sorted_nodup x l :
    ~ In x l -> NoDup l -> NoDup (insert_sorted leb x l).
  Proof.
    induction l as [|z l IH]; cbn [insert_sorted]; intros Hx Hn.
    - constructor; [auto|constructor].
    - destruct (leb x z); [constructor; assumption|].
      inversion Hn; subst. constructor.
      + rewrite in_insert_sorted. cbn [In] in Hx. intuition.
      + apply IH; [cbn [In] in Hx; tauto|assumption].
  Qed.

Lemma sorted_nodup l : NoDup l -> NoDup (sorted leb l).
  Proof.
    induction 1 as [|x l Hx Hn IH]; [constructor|].
    cbn [sorted fold_right]. apply insert_sorted_nodup; [|exact IH].
    fold (sorted leb l). rewrite in_sorted. assumption.
  Qed.

  (** The head of a sorted list is below every element. *)
Lemma sorted_head_least x l' l :
    sorted leb l = x :: l' ->
    forall y, In y l -> y = x \/ leb x y = true.
  Proof.
    intros E y Hy. apply in_sorted in Hy. rewrite E in Hy.
    pose proof (sorted_sorted l) as Hs. rewrite E in Hs.
    inversion Hs as [|? ? _ Hall]; subst.
    destruct Hy as [->|Hy]; [auto|].
    rewrite Forall_forall in Hall. auto.
  Qed.
End SortedFacts.

(** ** The run monad *)

Lemma mapM_emit {A B} (ev : A -> event) (f : A -> B) l :
  mapM (fun x => emit (ev x) (f x)) l = (map ev l, inr (map f l)).
Proof.
  induction l as [|x l IH]; [reflexivity|].
  cbn [mapM]. rewrite IH. unfold bind, emit, ret.
  cbn [app map]. rewrite app_nil_r. reflexivity.
Qed.

Lemma map_nth_seq {A B} (G : A -> B) (l : list A) d :
  map (fun i => G (nth i l d)) (seq 0 (List.length l)) = map G l.
Proof.
  induction l as [|x l IH]; [reflexivity|].
  cbn [List.length seq map nth]. f_equal.
  rewrite <- seq_shift, map_map. exact IH.
Qed.

Lemma nth_map_default {A B} (f : A -> B) l i d d' :
  (i < List.length l)%nat -> nth i (map f l) d' = f (nth i l d).
Proof.
  intros Hi. rewrite (nth_indep _ d' (f d)) by (rewrite length_map; exact Hi).
  apply map_nth.
Qed.

Lemma nth_repeat_default {A} (a d : A) n i :
  (i < n)%nat -> nth i (repeat a n) d = a.
Proof.
  intros Hi. rewrite (nth_indep _ d a) by (rewrite repeat_length; exact Hi).
  apply nth_repeat.
Qed.

(** ** The frame built by [retrieve_era5] *)

Section FrameFacts.

Variable isfile : string -> bool.
Variables (product : string) (startDate endDate : date) (eraDir : string)
            (latN latS lonE lonW : string) (step : Z)
            (surf_plev : string) (plevels : option (list Z)).

Let bbox := latN ++ "/" ++ lonW ++ "/" ++ latS ++ "/" ++ lonE.
Let dates := date_range_M startDate endDate.
Let frame := build_frame isfile product startDate endDate eraDir
                           latN latS lonE lonW step surf_plev plevels.

Lemma build_frame_surf :
    surf_plev = "surf" ->
    frame = (map IsFile (map (target_name eraDir "SURF_") dates),
             inr (map (row_of isfile product eraDir bbox step "SURF_" None)
                      dates)).
  Proof.
    intros ->. unfold frame, build_frame. fold dates.
    cbn [String.eqb Ascii.eqb Bool.eqb andb bind ret fst snd app].
    rewrite mapM_emit. cbn [bind ret app fst snd].
    rewrite app_nil_r. f_equal. f_equal.
    rewrite <- (map_nth_seq (row_of isfile product eraDir bbox step "SURF_" None)
                            dates (mkDate 0 0 0)).
    apply map_ext_in. intros i Hi. apply in_seq in Hi.
    unfold row_of.
    rewrite !(nth_map_default _ _ _ (mkDate 0 0 0)) by lia.
    rewrite (nth_map_default _ _ _ "") by (rewrite length_map; lia).
    rewrite (nth_map_default _ _ _ (mkDate 0 0 0)) by lia.
    reflexivity.
  Qed.

Lemma build_frame_plev :
    surf_plev = "plev" ->
    frame = (map IsFile (map (target_name eraDir "PLEV_") dates),
             inr (map (row_of isfile product eraDir bbox step "PLEV_"
                              (Some plevels))
                      dates)).
  Proof.
    intros ->. unfold frame, build_frame. fold dates.
    cbn [String.eqb Ascii.eqb Bool.eqb andb bind ret fst snd app].
    rewrite mapM_emit. cbn [bind ret app fst snd].
    rewrite app_nil_r. f_equal. f_equal.
    rewrite <- (map_nth_seq (row_of isfile product eraDir bbox step "PLEV_"
                                    (Some plevels))
                            dates (mkDate 0 0 0)).
    apply map_ext_in. intros i Hi. apply in_seq in Hi.
    unfold row_of.
    rewrite !(nth_map_default _ _ _ (mkDate 0 0 0)) by lia.
    rewrite (nth_map_default _ _ _ "") by (rewrite length_map; lia).
    rewrite (nth_map_default _ _ _ (mkDate 0 0 0)) by lia.
    rewrite nth_repeat_default by lia.
    reflexivity.
  Qed.

Lemma build_frame_other :
    surf_plev <> "surf" -> surf_plev <> "plev" ->
    frame = ([], inl (SysExit "ERROR: surf_plev can only be surf or plev")).
  Proof.
    intros H1 H2. unfold frame, build_frame.
    apply String.eqb_neq in H1, H2. rewrite H1, H2. reflexivity.
  Qed.

  (** However the frame ends, it is one of three shapes. *)
Lemma build_frame_cases :
    (surf_plev = "surf" /\
     frame = (map IsFile (map (target_name eraDir "SURF_") dates),
              inr (map (row_of isfile product eraDir bbox step "SURF_" None)
                       dates))) \/
    (surf_plev = "plev" /\
     frame = (map IsFile (map (target_name eraDir "PLEV_") dates),
              inr (map (row_of isfile product eraDir bbox step "PLEV_"
                               (Some plevels))
                       dates))) \/
    (surf_plev <> "surf" /\ surf_plev <> "plev" /\
     frame = ([], inl (SysExit "ERROR: surf_plev can only be surf or plev"))).
  Proof.
    destruct (string_dec surf_plev "surf") as [E|E];
      [left; auto using build_frame_surf|].
    destruct (string_dec surf_plev "plev") as [E'|E'];
      [right; left; auto using build_frame_plev|].
    right; right; auto using build_frame_other.
  Qed.

End FrameFacts.

(** ** The report, the gate and the pool *)

Lemma bind_ret_l {A B} (a : A) (k : A -> M B) : bind (ret a) k = k a.
Proof. unfold bind, ret. destruct (k a). reflexivity. Qed.

Lemma bind_raise_l {A B} f (k : A -> M B) : bind (raise f) k = raise f.
Proof. reflexivity. Qed.

Lemma bind_emit_l {A B} e (a : A) (k : A -> M B) :
  bind (emit e a) k = (e :: trace (k a), outcome (k a)).
Proof. unfold bind, emit, trace, outcome. destruct (k a). reflexivity. Qed.

Lemma bind_frame {A B} t (a : A) (k : A -> M B) :
  bind (t, inr a) k = ((t ++ trace (k a))%list, outcome (k a)).
Proof. unfold bind, trace, outcome. destruct (k a). reflexivity. Qed.

Lemma mapM_ret {A B} (f : A -> M B) (g : A -> B) l :
  (forall x, In x l -> f x = ret (g x)) -> mapM f l = ret (map g l).
Proof.
  induction l as [|x l IH]; intros H; [reflexivity|].
  cbn [mapM]. rewrite (H x) by (left; reflexivity).
  rewrite bind_ret_l, IH by (intros; apply H; right; assumption).
  rewrite bind_ret_l. reflexivity.
Qed.

Lemma series_getitem_ok {A} (s : list A) k :
  0 <= k < Z.of_nat (List.length s) -> exists a, series_getitem s k = ret a.
Proof.
  intros Hk. unfold series_getitem.
  destruct (Z.leb_spec 0 k); [|lia].
  destruct (Z.ltb_spec k (Z.of_nat (List.length s))); [|lia].
  cbn [andb].
  destruct (nth_error s (Z.to_nat k)) as [a|] eqn:E; [eauto|].
  apply nth_error_None in E. lia.
Qed.

Lemma series_getitem_empty {A} k :
  series_getitem (@nil A) k = raise (KeyError k).
Proof.
  unfold series_getitem. cbn [List.length Z.of_nat].
  destruct (Z.leb_spec 0 k), (Z.ltb_spec k 0); try reflexivity. lia.
Qed.

(** Asking the pool: the event, then how the pool ends. *)
Lemma run_pool_eq pool n tasks :
  run_pool pool n tasks = ([Starmap n tasks], pool_outcome pool n tasks).
Proof.
  unfold run_pool, pool_outcome. rewrite bind_emit_l.
  destruct (n <? 1); [reflexivity|]. destruct (pool tasks); reflexivity.
Qed.

Section FetchFacts.

Variable ans : string.
Variable pool : list cds_call -> option string.
Variable num_threads : Z.
Variable surf_plev : string.

Let fetch := report_and_fetch ans pool num_threads surf_plev.

Lemma fetch_empty : fetch [] = ([], inl (KeyError 0)).
  Proof.
    unfold fetch, report_and_fetch. cbn [map].
    rewrite series_getitem_empty. reflexivity.
  Qed.

  (** Past the two reported dates only the pending rows matter. *)
Lemma fetch_nonempty df :
    df <> [] ->
    fetch df =
    if 0 <? Z.of_nat (List.length (pending df)) then
      a <- emit (Input (prompt_of surf_plev)) ans ;;
      if gate a then
        if (surf_plev =? "surf")%string then
          run_pool pool num_threads (map surf_task (pending df))
        else if (surf_plev =? "plev")%string then
          tasks <- mapM (fun r => p <- row_plevels r ;; ret (plev_task p r))
                        (pending df) ;;
          run_pool pool num_threads tasks
        else raise (SysExit "ERROR: surf_plev can only be surf or plev")
      else raise (SysExit declined_msg)
    else ret tt.
  Proof.
    intros Hne. unfold fetch, report_and_fetch.
    assert (0 < Z.of_nat (List.length (map Row.dates df))) as Hlen.
    { rewrite length_map. destruct df; [congruence|]. cbn [List.length]. lia. }
    destruct (series_getitem_ok (map Row.dates df) 0) as [a ->]; [lia|].
    rewrite bind_ret_l.
    destruct (series_getitem_ok (map Row.dates df)
                (Z.of_nat (List.length df) - 1)) as [b ->];
      [rewrite length_map in *; lia|].
    rewrite bind_ret_l. reflexivity.
  Qed.

Lemma fetch_nothing_pending df :
    df <> [] -> pending df = [] -> fetch df = ([], inr tt).
  Proof.
    intros Hne Hp. rewrite fetch_nonempty, Hp by assumption. reflexivity.
  Qed.

Lemma fetch_declined df :
    pending df <> [] -> gate ans = false ->
    fetch df = ([Input (prompt_of surf_plev)], inl (SysExit declined_msg)).
  Proof.
    intros Hp Hg.
    assert (df <> []) as Hne by (intros ->; apply Hp; reflexivity).
    rewrite fetch_nonempty by assumption.
    destruct (pending df) as [|r l]; [congruence|].
    cbn [List.length]. destruct (Z.ltb_spec 0 (Z.of_nat (S (List.length l)))); [|lia].
    rewrite bind_emit_l, Hg. reflexivity.
  Qed.

Lemma fetch_surf df :
    surf_plev = "surf" -> pending df <> [] -> gate ans = true ->
    fetch df = ([Input (prompt_of surf_plev);
                 Starmap num_threads (map surf_task (pending df))],
                pool_outcome pool num_threads (map surf_task (pending df))).
  Proof.
    intros Hs Hp Hg.
    assert (df <> []) as Hne by (intros ->; apply Hp; reflexivity).
    rewrite fetch_nonempty by assumption.
    destruct (pending df) as [|r l] eqn:E; [congruence|].
    cbn [List.length]. destruct (Z.ltb_spec 0 (Z.of_nat (S (List.length l)))); [|lia].
    rewrite bind_emit_l, Hg, Hs.
    cbn [String.eqb Ascii.eqb Bool.eqb andb].
    rewrite run_pool_eq. reflexivity.
  Qed.

Lemma fetch_plev df p :
    surf_plev = "plev" -> pending df <> [] -> gate ans = true ->
    (forall r, In r df -> Row.plevels r = Some p) ->
    fetch df = ([Input (prompt_of surf_plev);
                 Starmap num_threads (map (plev_task p) (pending df))],
                pool_outcome pool num_threads
                  (map (plev_task p) (pending df))).
  Proof.
    intros Hs Hp Hg Hcell.
    assert (df <> []) as Hne by (intros ->; apply Hp; reflexivity).
    rewrite fetch_nonempty by assumption.
    assert (mapM (fun r => p0 <- row_plevels r ;; ret (plev_task p0 r)) (pending df)
            = ret (map (plev_task p) (pending df))) as Hm.
    { apply mapM_ret. intros r Hr. apply filter_In in Hr. destruct Hr as [Hr _].
      unfold row_plevels. rewrite (Hcell r Hr). reflexivity. }
    rewrite Hm.
    destruct (pending df) as [|r l] eqn:E; [congruence|].
    cbn [List.length]. destruct (Z.ltb_spec 0 (Z.of_nat (S (List.length l)))); [|lia].
    rewrite bind_emit_l, Hg, Hs.
    cbn [String.eqb Ascii.eqb Bool.eqb andb].
    rewrite bind_ret_l, run_pool_eq. reflexivity.
  Qed.

End FetchFacts.

Section FetchShape.

Variable ans : string.
Variable pool : list cds_call -> option string.
Variable num_threads : Z.

Lemma fetch_shape_surf df :
    report_and_fetch ans pool num_threads "surf" df
    = fetch_result ans pool num_threads "surf" (map surf_task (pending df)) df.
  Proof.
    unfold fetch_result. destruct df as [|r0 df0] eqn:Edf; [apply fetch_empty|].
    rewrite <- Edf. assert (df <> []) as Hne by (rewrite Edf; discriminate).
    destruct (pending df) as [|r l] eqn:E.
    - apply fetch_nothing_pending; assumption.
    - destruct (gate ans) eqn:Hg.
      + rewrite fetch_surf, E by (auto; rewrite E; discriminate). reflexivity.
      + apply fetch_declined; [rewrite E; discriminate | assumption].
  Qed.

Lemma fetch_shape_plev df p :
    (forall r, In r df -> Row.plevels r = Some p) ->
    report_and_fetch ans pool num_threads "plev" df
    = fetch_result ans pool num_threads "plev" (map (plev_task p) (pending df)) df.
  Proof.
    intros Hcell.
    unfold fetch_result. destruct df as [|r0 df0] eqn:Edf; [apply fetch_empty|].
    rewrite <- Edf in *. assert (df <> []) as Hne by (rewrite Edf; discriminate).
    destruct (pending df) as [|r l] eqn:E.
    - apply fetch_nothing_pending; assumption.
    - destruct (gate ans) eqn:Hg.
      + rewrite (fetch_plev _ _ _ _ _ p), E by (auto; rewrite E; discriminate).
        reflexivity.
      + apply fetch_declined; [rewrite E; discriminate | assumption].
  Qed.

End FetchShape.

Lemma existsb_map_IsFile (p : event -> bool) l :
  p (IsFile "") = false ->
  (forall x y, p (IsFile x) = p (IsFile y)) ->
  existsb p (map IsFile l) = false.
Proof.
  intros H0 Hc. induction l as [|x l IH]; [reflexivity|].
  cbn [map existsb]. rewrite IH, (Hc x ""), H0. reflexivity.
Qed.

Lemma no_pool_in_checks l : existsb is_pool (map IsFile l) = false.
Proof. apply existsb_map_IsFile; reflexivity. Qed.



Lemma in_row_of_cell isfile product eraDir bbox step prefix cell dates r :
  In r (map (row_of isfile product eraDir bbox step prefix cell) dates) ->
  Row.plevels r = cell /\
  Row.time_steps r = dict_get time_step_dict step /\
  Row.step r = step /\ In (Row.dates r) dates.
Proof.
  intros H. apply in_map_iff in H. destruct H as (x & <- & Hx).
  cbn. auto.
Qed.

(** ** Whole runs of [retrieve_era5] *)




(** C7: with [surf_plev] neither "surf" nor "plev" the run ends in
    [sys.exit] with the message of line 67 and a non-zero status, and has
    made no outside call at all before: no existence check, no prompt, no
    pool and no retrieval. *)
Theorem invalid_surf_plev_exits_first
    isfile ans pool product s e eraDir latN latS lonE lonW
    step num_threads surf_plev plevels :
  surf_plev <> "surf" -> surf_plev <> "plev" ->
  let run := retrieve_era5 isfile ans pool product s e eraDir latN latS lonE lonW
                           step num_threads surf_plev plevels in
  outcome run = inl (SysExit "ERROR: surf_plev can only be surf or plev")
  /\ exit_status (SysExit "ERROR: surf_plev can only be surf or plev") <> 0
  /\ trace run = []
  /\ existsb is_check (trace run) = false
  /\ existsb is_prompt (trace run) = false
  /\ existsb is_network (trace run) = false.
Proof.
  intros H1 H2 run. subst run. unfold retrieve_era5.
  rewrite build_frame_other by assumption.
  cbn. repeat split; try reflexivity. discriminate.
Qed.

Lemma invalid_surf_plev_exits_first_witness :
  let run := retrieve_era5 (fun _ => false) "y" (fun _ => None) "reanalysis"
               (mkDate 2020 1 1) (mkDate 2020 3 31) "/data/"
               "47.9" "45.75" "10.6" "5.7" 6 10 "sfc" None in
  outcome run = inl (SysExit "ERROR: surf_plev can only be surf or plev")
  /\ exit_status (SysExit "ERROR: surf_plev can only be surf or plev") <> 0
  /\ trace run = []
  /\ existsb is_check (trace run) = false
  /\ existsb is_prompt (trace run) = false
  /\ existsb is_network (trace run) = false.
Proof.
  apply (invalid_surf_plev_exits_first (fun _ => false) "y" (fun _ => None) "reanalysis"
           (mkDate 2020 1 1) (mkDate 2020 3 31) "/data/"
           "47.9" "45.75" "10.6" "5.7" 6 10 "sfc" None);
    discriminate.
Defined.


(** ** Outcome of a run *)

Lemma pending_row_of isfile product eraDir bbox step prefix cell dates :
  pending (map (row_of isfile product eraDir bbox step prefix cell) dates) = []
  <-> forallb (fun x => isfile (target_name eraDir prefix x)) dates = true.
Proof.
  unfold pending. induction dates as [|x l IH]; [cbn; tauto|].
  cbn [map filter forallb row_of Row.file_exist].
  destruct (isfile (target_name eraDir prefix x)); cbn [Z.eqb andb].
  - exact IH.
  - split; discriminate.
Qed.

(** ** Month ends in a range *)

Lemma is_on_offset_month_end_of_index i :
  is_on_offset (month_end_of_index i) = true.
Proof. unfold is_on_offset, month_end_of_index, month_end. cbn. apply Z.eqb_refl. Qed.

Lemma date_range_M_empty s e :
  wf_date s -> wf_date e -> no_month_end s e -> date_range_M s e = [].
Proof.
  intros Hs He Hno. rewrite date_range_M_closed by assumption.
  destruct (Z.to_nat (last_ended_index e - month_index s + 1)) eqn:En;
    [reflexivity|].
  exfalso.
  apply (Hno (month_end_of_index (month_index s))).
  - apply wf_month_end_of_index.
  - apply is_on_offset_month_end_of_index.
  - split.
    + rewrite leb_month_end_index by assumption. apply Z.leb_refl.
    + rewrite month_end_leb_index by assumption. apply Z.leb_le. lia.
Qed.

Lemma valid_wf d : valid_date d -> wf_date d.
Proof. intros H. apply valid_date_inv in H. tauto. Qed.

(** C10, amended: with [surf_plev] "surf" or "plev" and no month end
    within the dates, the plan is empty and the run ends with the uncaught
    [KeyError] of [df.dates[0]] (line 75), having made no existence check,
    asked nothing and fetched nothing. *)
Theorem no_month_end_raises_key_error
    isfile ans pool product s e eraDir latN latS lonE lonW
    step num_threads surf_plev plevels :
  valid_date s -> valid_date e -> no_month_end s e ->
  surf_plev = "surf" \/ surf_plev = "plev" ->
  let frame := build_frame isfile product s e eraDir latN latS lonE lonW
                           step surf_plev plevels in
  let run := retrieve_era5 isfile ans pool product s e eraDir latN latS lonE lonW
                           step num_threads surf_plev plevels in
  frame = ([], inr [])
  /\ run = ([], inl (KeyError 0))
  /\ raises_indexing_error run
  /\ existsb is_check (trace run) = false
  /\ existsb is_prompt (trace run) = false
  /\ existsb is_network (trace run) = false.
Proof.
  intros Hs He Hno Hk frame run.
  pose proof (date_range_M_empty s e (valid_wf _ Hs) (valid_wf _ He) Hno) as Hd.
  assert (frame = ([], inr [])) as Ef.
  { subst frame. destruct Hk as [-> | ->];
      [rewrite build_frame_surf by reflexivity
      |rewrite build_frame_plev by reflexivity];
      rewrite Hd; reflexivity. }
  assert (run = ([], inl (KeyError 0))) as Er.
  { subst run. unfold retrieve_era5. fold frame. rewrite Ef.
    rewrite bind_frame, fetch_empty. reflexivity. }
  split; [exact Ef|]. split; [exact Er|]. rewrite Er.
  repeat split. exists (KeyError 0). split; reflexivity.
Qed.

Lemma no_month_end_jan_2020 :
  no_month_end (mkDate 2020 1 5) (mkDate 2020 1 20).
Proof.
  intros d Hd Hon [H1 H2].
  assert (wf_date (mkDate 2020 1 5)) by (unfold wf_date; cbn; lia).
  assert (wf_date (mkDate 2020 1 20)) by (unfold wf_date; cbn; lia).
  apply date_leb_iff in H1, H2; try assumption.
  unfold is_on_offset in Hon. apply Z.eqb_eq in Hon.
  pose proof (days_in_month_bounds (Calendar.year d) (Calendar.month d)).
  destruct Hd as [Hm Hday].
  unfold day_code, month_index in *.
  cbn [Calendar.year Calendar.month day] in *. lia.
Defined.

Lemma no_month_end_raises_key_error_witness :
  let run := retrieve_era5 (fun _ => false) "y" (fun _ => None) "reanalysis"
               (mkDate 2020 1 5) (mkDate 2020 1 20) "/data/"
               "47.9" "45.75" "10.6" "5.7" 6 10 "surf" None in
  run = ([], inl (KeyError 0)) /\ raises_indexing_error run.
Proof.
  pose proof (no_month_end_raises_key_error (fun _ => false) "y" (fun _ => None) "reanalysis"
           (mkDate 2020 1 5) (mkDate 2020 1 20) "/data/"
           "47.9" "45.75" "10.6" "5.7" 6 10 "surf" None
           eq_refl eq_refl no_month_end_jan_2020 (or_introl eq_refl)) as H.
  cbv zeta in H |- *. destruct H as (_ & H1 & H2 & _). split; assumption.
Defined.

(** C10 as stated fails when [surf_plev] is not a known kind: the dates
    hold no month end, yet the run ends in [sys.exit], not in an indexing
    error. *)
Lemma no_month_end_unknown_kind_exits :
  no_month_end (mkDate 2020 1 5) (mkDate 2020 1 20) /\
  ~ raises_indexing_error
      (retrieve_era5 (fun _ => false) "y" (fun _ => None) "reanalysis"
         (mkDate 2020 1 5) (mkDate 2020 1 20) "/data/"
         "47.9" "45.75" "10.6" "5.7" 6 10 "sfc" None).
Proof.
  split; [exact no_month_end_jan_2020|].
  intros (f & Hf & Hi). cbv in Hf. injection Hf as <-. discriminate Hi.
Qed.

(** ** The month plan *)

Lemma rows_of_frame isfile product s e eraDir latN latS lonE lonW
      step surf_plev plevels :
  surf_plev = "surf" \/ surf_plev = "plev" ->
  exists prefix cell,
    build_frame isfile product s e eraDir latN latS lonE lonW
                step surf_plev plevels
    = (map IsFile (map (target_name eraDir prefix) (date_range_M s e)),
       inr (map (row_of isfile product eraDir
                        (latN ++ "/" ++ lonW ++ "/" ++ latS ++ "/" ++ lonE)
                        step prefix cell)
                (date_range_M s e))).
Proof.
  intros [-> | ->].
  - exists "SURF_", None. apply build_frame_surf. reflexivity.
  - exists "PLEV_", (Some plevels). apply build_frame_plev. reflexivity.
Qed.

Lemma plan_months_rows isfile product eraDir bbox step prefix cell dates :
  plan_months (map (row_of isfile product eraDir bbox step prefix cell) dates)
  = map (fun x => (Calendar.year x, Calendar.month x)) dates.
Proof. unfold plan_months. rewrite map_map. reflexivity. Qed.

Lemma target_files_rows isfile product eraDir bbox step prefix cell dates :
  map Row.target_file
      (map (row_of isfile product eraDir bbox step prefix cell) dates)
  = map (target_name eraDir prefix) dates.
Proof. rewrite map_map. reflexivity. Qed.

Lemma ym_of_index_inj i j : ym_of_index i = ym_of_index j -> i = j.
Proof. unfold ym_of_index. intros H. injection H as H1 H2. lia. Qed.

Lemma StronglySorted_map {A B} (R : A -> A -> Prop) (R' : B -> B -> Prop)
      (f : A -> B) l :
  (forall a b, R a b -> R' (f a) (f b)) ->
  StronglySorted R l -> StronglySorted R' (map f l).
Proof.
  intros HR. induction 1 as [|a l Hs IH Ha]; cbn [map]; constructor; auto.
  apply Forall_forall. intros b Hb. apply in_map_iff in Hb.
  destruct Hb as (x & <- & Hx). rewrite Forall_forall in Ha. auto.
Qed.

Lemma in_months_ended_in_span s e y m :
  wf_date s -> wf_date e -> 1 <= m <= 12 ->
  In (y, m) (months_ended_in_span s e) <-> within s e (month_end y m).
Proof.
  intros Hs He Hm. unfold months_ended_in_span, within.
  pose proof (month_end_of_month_index (mkDate y m 0) Hm) as Hi.
  cbn [Calendar.year Calendar.month] in Hi. rewrite <- Hi.
  rewrite leb_month_end_index, month_end_leb_index by assumption.
  rewrite !Z.leb_le, in_map_iff. split.
  - intros (i & Ei & Hin). apply in_zrange in Hin.
    assert (i = month_index (mkDate y m 0)) as ->; [|lia].
    unfold ym_of_index in Ei. injection Ei as E1 E2.
    unfold month_index. cbn [Calendar.year Calendar.month]. lia.
  - intros [H1 H2]. exists (month_index (mkDate y m 0)). split.
    + unfold ym_of_index, month_index. cbn [Calendar.year Calendar.month].
      f_equal; lia.
    + apply in_zrange. lia.
Qed.

Lemma year_in_range s e i :
  valid_date s -> valid_date e ->
  In i (zrange (month_index s)
               (Z.to_nat (last_ended_index e - month_index s + 1))) ->
  1678 <= i / 12 <= 2261 /\ 1 <= i mod 12 + 1 <= 12.
Proof.
  intros Hs He Hi. apply in_zrange in Hi.
  apply valid_date_inv in Hs, He.
  destruct Hs as (Hys & Hms & _), He as (Hye & Hme & _).
  pose proof (last_ended_index_le e). unfold month_index in *. lia.
Qed.

(** C1, amended: for valid dates and [surf_plev] "surf" or "plev" the plan
    is built and holds exactly one row per calendar month whose last day
    lies within [startDate .. endDate], in chronological order and with
    pairwise distinct target files.  The day of [startDate] plays no part;
    [endDate]'s own month is in the plan only when [endDate] is its last
    day. *)
Theorem plan_is_months_ended_in_span
    isfile product s e eraDir latN latS lonE lonW step surf_plev plevels :
  valid_date s -> valid_date e ->
  surf_plev = "surf" \/ surf_plev = "plev" ->
  let plan := fun s0 e0 =>
    rows_of (build_frame isfile product s0 e0 eraDir latN latS lonE lonW
                         step surf_plev plevels) in
  ~ fails (build_frame isfile product s e eraDir latN latS lonE lonW
                       step surf_plev plevels)
  /\ plan_months (plan s e) = months_ended_in_span s e
  /\ (forall y m, 1 <= m <= 12 ->
        (In (y, m) (plan_months (plan s e)) <-> within s e (month_end y m)))
  /\ StronglySorted ym_lt (plan_months (plan s e))
  /\ NoDup (plan_months (plan s e))
  /\ NoDup (map Row.target_file (plan s e))
  /\ (forall s', valid_date s' ->
        Calendar.year s' = Calendar.year s ->
        Calendar.month s' = Calendar.month s ->
        plan s' e = plan s e)
  /\ (forall e', valid_date e' ->
        last_ended_index e' = last_ended_index e ->
        plan s e' = plan s e).
Proof.
  intros Hs He Hk plan.
  pose proof (valid_wf _ Hs) as Ws. pose proof (valid_wf _ He) as We.
  assert (forall s0 e0, wf_date s0 -> wf_date e0 ->
            exists prefix cell,
              ~ fails (build_frame isfile product s0 e0 eraDir latN latS lonE
                                   lonW step surf_plev plevels) /\
              plan s0 e0
              = map (row_of isfile product eraDir
                       (latN ++ "/" ++ lonW ++ "/" ++ latS ++ "/" ++ lonE)
                       step prefix cell)
                    (map month_end_of_index
                       (zrange (month_index s0)
                          (Z.to_nat (last_ended_index e0 - month_index s0 + 1)))))
    as Hplan.
  { intros s0 e0 W0 W1. subst plan. cbv beta.
    destruct Hk as [-> | ->];
      [exists "SURF_", None; rewrite build_frame_surf by reflexivity
      |exists "PLEV_", (Some plevels); rewrite build_frame_plev by reflexivity];
      (split; [intros [f Hf]; discriminate Hf|]);
      unfold rows_of; cbn [outcome snd];
      rewrite date_range_M_closed by assumption; reflexivity. }
  destruct (Hplan s e Ws We) as (prefix & cell & Hok & Ep).
  assert (plan_months (plan s e) = months_ended_in_span s e) as Em.
  { rewrite Ep, plan_months_rows, map_map. reflexivity. }
  split; [exact Hok|]. split; [exact Em|]. rewrite Em.
  split; [intros y m Hm; apply in_months_ended_in_span; assumption|].
  split.
  { unfold months_ended_in_span.
    apply (StronglySorted_map Z.lt); [|apply zrange_sorted].
    intros a b Hab. unfold ym_lt, ym_of_index. cbn [fst snd]. lia. }
  split.
  { unfold months_ended_in_span.
    apply NoDup_map_NoDup_ForallPairs; [|apply zrange_nodup].
    intros i j _ _. apply ym_of_index_inj. }
  split.
  { rewrite Ep, target_files_rows, map_map.
    apply NoDup_map_NoDup_ForallPairs; [|apply zrange_nodup].
    intros i j Hi Hj E.
    destruct (year_in_range s e i Hs He Hi) as [Hyi Hmi].
    destruct (year_in_range s e j Hs He Hj) as [Hyj Hmj].
    apply target_name_inj in E; try assumption.
    apply ym_of_index_inj. unfold ym_of_index.
    destruct E as [E1 E2].
    unfold month_end_of_index, month_end in E1, E2.
    cbn [Calendar.year Calendar.month] in E1, E2. congruence. }
  split.
  - intros s' Hs' Ey Emo.
    destruct (Hplan s' e (valid_wf _ Hs') We) as (prefix' & cell' & _ & Ep').
    assert (month_index s' = month_index s) as Ei
        by (unfold month_index; lia).
    subst plan. cbv beta in *.
    destruct Hk as [-> | ->];
      rewrite ?build_frame_surf, ?build_frame_plev by reflexivity;
      unfold rows_of; cbn [outcome snd];
      rewrite !date_range_M_closed, Ei by (assumption || apply valid_wf; assumption);
      reflexivity.
  - intros e' He' El.
    subst plan. cbv beta in *.
    destruct Hk as [-> | ->];
      rewrite ?build_frame_surf, ?build_frame_plev by reflexivity;
      unfold rows_of; cbn [outcome snd];
      rewrite !date_range_M_closed, El by (assumption || apply valid_wf; assumption);
      reflexivity.
Qed.

Lemma plan_is_months_ended_in_span_witness :
  plan_months
    (rows_of (build_frame (fun _ => false) "reanalysis"
                (mkDate 2020 1 5) (mkDate 2020 3 20) "/data/"
                "47.9" "45.75" "10.6" "5.7" 6 "surf" None))
  = months_ended_in_span (mkDate 2020 1 5) (mkDate 2020 3 20)
  /\ months_ended_in_span (mkDate 2020 1 5) (mkDate 2020 3 20)
     = [(2020, 1); (2020, 2)].
Proof.
  pose proof (plan_is_months_ended_in_span (fun _ => false) "reanalysis"
                (mkDate 2020 1 5) (mkDate 2020 3 20) "/data/"
                "47.9" "45.75" "10.6" "5.7" 6 "surf" None
                eq_refl eq_refl (or_introl eq_refl)) as H.
  cbv zeta beta in H. destruct H as (_ & H & _).
  split; [exact H | reflexivity].
Defined.

(** C1 as stated fails: from 2020-01-01 to 2020-03-15 the span holds
    January, February and March, the plan only January and February; with
    2020-03-31 as end date March is in the plan, so the day of the end date
    matters. *)
Lemma plan_misses_unfinished_end_month :
  ~ covers_span_months
      (build_frame (fun _ => false) "reanalysis"
         (mkDate 2020 1 1) (mkDate 2020 3 15) "/data/"
         "47.9" "45.75" "10.6" "5.7" 6 "surf" None)
      (mkDate 2020 1 1) (mkDate 2020 3 15)
  /\ plan_months
       (rows_of (build_frame (fun _ => false) "reanalysis"
                   (mkDate 2020 1 1) (mkDate 2020 3 15) "/data/"
                   "47.9" "45.75" "10.6" "5.7" 6 "surf" None))
     <> plan_months
          (rows_of (build_frame (fun _ => false) "reanalysis"
                      (mkDate 2020 1 1) (mkDate 2020 3 31) "/data/"
                      "47.9" "45.75" "10.6" "5.7" 6 "surf" None)).
Proof.
  split; [unfold covers_span_months|]; vm_compute; discriminate.
Qed.

(** ** Time steps and pressure levels *)

Lemma rows_of_cases isfile product s e eraDir latN latS lonE lonW
      step surf_plev plevels :
  let frame := build_frame isfile product s e eraDir latN latS lonE lonW
                           step surf_plev plevels in
  rows_of frame = [] \/
  exists prefix cell,
    (surf_plev = "plev" -> cell = Some plevels) /\
    rows_of frame
    = map (row_of isfile product eraDir
                  (latN ++ "/" ++ lonW ++ "/" ++ latS ++ "/" ++ lonE)
                  step prefix cell)
          (date_range_M s e).
Proof.
  intros frame. subst frame.
  destruct (build_frame_cases isfile product s e eraDir latN latS lonE lonW
              step surf_plev plevels) as [[-> E]|[[-> E]|(H1 & H2 & E)]];
    rewrite E; unfold rows_of; cbn [outcome snd].
  - right. exists "SURF_", None. split; [discriminate|reflexivity].
  - right. exists "PLEV_", (Some plevels). split; [reflexivity|reflexivity].
  - left. reflexivity.
Qed.

(** C6: for [step] 1, 3 or 6 every row of the plan carries the marks of
    that step: the 24 hourly marks '00:00' .. '23:00' for 1, the 8
    three-hourly marks '00:00' .. '21:00' for 3 and for 6. *)
Theorem time_steps_match_step
    isfile product s e eraDir latN latS lonE lonW step surf_plev plevels :
  step = 1 \/ step = 3 \/ step = 6 ->
  Forall (fun r => Row.time_steps r = Some (marks_for_step step))
         (rows_of (build_frame isfile product s e eraDir latN latS lonE lonW
                               step surf_plev plevels))
  /\ List.length (marks_for_step step) = (if step =? 1 then 24%nat else 8%nat)
  /\ marks_for_step 1 = hourly_marks
  /\ marks_for_step 3 = three_hourly_marks
  /\ marks_for_step 6 = three_hourly_marks
  /\ three_hourly_marks
     = ["00:00"; "03:00"; "06:00"; "09:00"; "12:00"; "15:00"; "18:00"; "21:00"].
Proof.
  intros Hstep.
  assert (dict_get time_step_dict step = Some (marks_for_step step)) as Hd
      by (destruct Hstep as [-> | [-> | ->]]; reflexivity).
  split.
  - destruct (rows_of_cases isfile product s e eraDir latN latS lonE lonW
                step surf_plev plevels) as [-> | (prefix & cell & _ & ->)];
      [constructor|].
    apply Forall_forall. intros r Hr. apply in_row_of_cell in Hr.
    destruct Hr as (_ & -> & _). exact Hd.
  - split; [destruct Hstep as [-> | [-> | ->]]; reflexivity|].
    repeat split; reflexivity.
Qed.

Lemma time_steps_match_step_witness :
  Forall (fun r => Row.time_steps r = Some (marks_for_step 6))
         (rows_of (build_frame (fun _ => false) "reanalysis"
                     (mkDate 2020 1 1) (mkDate 2020 3 31) "/data/"
                     "47.9" "45.75" "10.6" "5.7" 6 "surf" None))
  /\ List.length
       (rows_of (build_frame (fun _ => false) "reanalysis"
                   (mkDate 2020 1 1) (mkDate 2020 3 31) "/data/"
                   "47.9" "45.75" "10.6" "5.7" 6 "surf" None)) = 3%nat.
Proof.
  split; [|reflexivity].
  apply (time_steps_match_step (fun _ => false) "reanalysis"
           (mkDate 2020 1 1) (mkDate 2020 3 31) "/data/"
           "47.9" "45.75" "10.6" "5.7" 6 "surf" None).
  right; right; reflexivity.
Defined.

(** ** [eraCat5d] *)

Lemma string_leb_trans x y z :
  String.leb x y = true -> String.leb y z = true -> String.leb x z = true.
Proof.
  unfold String.leb. revert y z.
  induction x as [|a x IH]; intros [|b y] [|c z]; cbn;
    try reflexivity; try discriminate.
  unfold Ascii.compare.
  destruct (N.compare_spec (N_of_ascii a) (N_of_ascii b)) as [Eab|Lab|Gab];
    destruct (N.compare_spec (N_of_ascii b) (N_of_ascii c)) as [Ebc|Lbc|Gbc];
    destruct (N.compare_spec (N_of_ascii a) (N_of_ascii c)) as [Eac|Lac|Gac];
    try reflexivity; try discriminate; try lia; intros H1 H2;
    try discriminate; try reflexivity.
  apply (IH y z); assumption.
Qed.

(** The file [eraCat5d] rewrites is the least of the matching names. *)
Lemma first_file_is_least (l : list string) f rest :
  sorted String.leb l = f :: rest ->
  In f l /\ forall g, In g l -> String.leb f g = true.
Proof.
  intros E. split.
  - apply (in_sorted String.leb). rewrite E. left. reflexivity.
  - intros g Hg.
    destruct (sorted_head_least String.leb String.leb_total string_leb_trans
                f rest l E g Hg) as [-> | H]; [|exact H].
    destruct (String.leb_total f f); assumption.
Qed.

(** With files matching and both tools succeeding, the two commands. *)
Lemma eraCat5d_commands glob sh wd grepStr f rest :
  sorted String.leb (glob (wd ++ grepStr ++ "*")) = f :: rest ->
  (forall cmd, sh cmd = true) ->
  eraCat5d glob sh wd grepStr
  = ([Glob (wd ++ grepStr ++ "*");
      Shell ("ncks -O --mk_rec_dmn time " ++ f ++ " " ++ f);
      Shell ("ncrcat " ++ grepStr ++ "*" ++ " " ++ grepStr ++ ".nc")],
     inr tt).
Proof.
  intros E Hsh. unfold eraCat5d. rewrite bind_emit_l, E.
  cbn [list_first]. rewrite bind_ret_l.
  unfold check_output. rewrite !Hsh. reflexivity.
Qed.

(** C8: when nothing matches [wd + grepStr + '*'], [eraCat5d] ends with
    the [IndexError] of [lst[0]] and has run no command. *)
Theorem eraCat5d_empty_glob_fails glob sh wd grepStr :
  glob (wd ++ grepStr ++ "*") = [] ->
  eraCat5d glob sh wd grepStr
  = ([Glob (wd ++ grepStr ++ "*")], inl IndexError)
  /\ fails (eraCat5d glob sh wd grepStr)
  /\ existsb is_shell (trace (eraCat5d glob sh wd grepStr)) = false.
Proof.
  intros E.
  assert (eraCat5d glob sh wd grepStr
          = ([Glob (wd ++ grepStr ++ "*")], inl IndexError)) as Er.
  { unfold eraCat5d. rewrite bind_emit_l, E. reflexivity. }
  rewrite Er. repeat split. exists IndexError. reflexivity.
Qed.

Lemma eraCat5d_empty_glob_fails_witness :
  eraCat5d (fun _ => []) (fun _ => true) "/home/eraDat/" "PLEV"
  = ([Glob "/home/eraDat/PLEV*"], inl IndexError).
Proof.
  apply (eraCat5d_empty_glob_fails (fun _ => []) (fun _ => true)
           "/home/eraDat/" "PLEV" eq_refl).
Defined.

(** C5: on the docstring's own example, with two monthly files in [wd],
    [eraCat5d] rewrites the first file of [wd] in place, but its merge
    command names neither [wd] nor the files found there: it is not the
    command that merges [wd]'s files into [wd], which the sibling [eraCat]
    does build. *)
Theorem eraCat5d_merge_ignores_wd :
  let glob := fun _ : string =>
    ["/home/eraDat/PLEV_202002.nc"; "/home/eraDat/PLEV_202001.nc"] in
  eraCat5d glob (fun _ => true) "/home/eraDat/" "PLEV"
  = ([Glob "/home/eraDat/PLEV*";
      Shell "ncks -O --mk_rec_dmn time /home/eraDat/PLEV_202001.nc /home/eraDat/PLEV_202001.nc";
      Shell "ncrcat PLEV* PLEV.nc"],
     inr tt)
  /\ "ncrcat PLEV* PLEV.nc" <> ncrcat_in_wd "/home/eraDat/" "PLEV"
  /\ eraCat (fun _ => true) "/home/eraDat/" "PLEV"
     = ([Shell "cdo -b F64 -f nc2 mergetime /home/eraDat/PLEV* /home/eraDat//PLEV.nc"],
        inr tt).
Proof.
  cbv zeta. repeat split; try reflexivity. vm_compute. discriminate.
Qed.

(** ** [retrieve_era5_tpmm] *)

Lemma tpmm_start_spec s :
  wf_date s ->
  wf_date (tpmm_start s) /\ month_index (tpmm_start s) = month_index s - 1.
Proof.
  intros [Hm Hd]. unfold tpmm_start, add_relativedelta_months, wf_date, month_index.
  destruct (Z.ltb_spec 12 (Calendar.month s + -1)); [lia|].
  destruct (Z.ltb_spec (Calendar.month s + -1) 1);
    cbn [Calendar.year Calendar.month day];
    match goal with
    | |- context [days_in_month ?y ?m] => pose proof (days_in_month_bounds y m)
    end; lia.
Qed.

Lemma tpmm_end_spec e :
  wf_date e ->
  wf_date (tpmm_end e) /\ month_index (tpmm_end e) = month_index e + 1.
Proof.
  intros [Hm Hd]. unfold tpmm_end, add_relativedelta_months, wf_date, month_index.
  destruct (Z.ltb_spec 12 (Calendar.month e + 1));
    [|destruct (Z.ltb_spec (Calendar.month e + 1) 1); [lia|]];
    cbn [Calendar.year Calendar.month day];
    match goal with
    | |- context [days_in_month ?y ?m] => pose proof (days_in_month_bounds y m)
    end; lia.
Qed.

Lemma leb_lt_nodup l :
  StronglySorted (fun a b => (a <=? b) = true) l -> NoDup l ->
  StronglySorted Z.lt l.
Proof.
  induction 1 as [|a l Hs IH Ha]; intros Hn; constructor.
  - apply IH. inversion Hn; assumption.
  - inversion Hn as [|? ? Hnin _]; subst.
    rewrite Forall_forall in *. intros b Hb.
    specialize (Ha b Hb). apply Z.leb_le in Ha.
    assert (a <> b) by (intros ->; contradiction). lia.
Qed.

Lemma sorted_lt_ext l1 l2 :
  StronglySorted Z.lt l1 -> StronglySorted Z.lt l2 ->
  (forall x, In x l1 <-> In x l2) -> l1 = l2.
Proof.
  intros H1. revert l2.
  induction H1 as [|a l1 Hs1 IH Ha]; intros l2 H2 Hin.
  - destruct l2 as [|b l2]; [reflexivity|].
    exfalso. apply (proj2 (Hin b)). left; reflexivity.
  - destruct H2 as [|b l2 Hs2 Hb].
    + exfalso. apply (proj1 (Hin a)). left; reflexivity.
    + rewrite Forall_forall in Ha, Hb.
      assert (a = b) as ->.
      { destruct (proj1 (Hin a) (or_introl eq_refl)) as [E|Hi]; [auto|].
        destruct (proj2 (Hin b) (or_introl eq_refl)) as [E|Hj]; [auto|].
        specialize (Ha _ Hj). specialize (Hb _ Hi). lia. }
      f_equal. apply IH; [assumption|].
      intros x. split; intros Hx.
      * destruct (proj1 (Hin x) (or_intror Hx)) as [E|Hi]; [|exact Hi].
        subst x. specialize (Ha _ Hx). lia.
      * destruct (proj2 (Hin x) (or_intror Hx)) as [E|Hi]; [|exact Hi].
        subst x. specialize (Hb _ Hx). lia.
Qed.

Lemma z_leb_total x y : (x <=? y) = true \/ (y <=? x) = true.
Proof. rewrite !Z.leb_le. lia. Qed.

Lemma z_leb_trans x y z :
  (x <=? y) = true -> (y <=? z) = true -> (x <=? z) = true.
Proof. rewrite !Z.leb_le. lia. Qed.

(** The years of the request: those of the dates within the widened
    range, in increasing order, each once. *)
Lemma tpmm_years_spec s e :
  wf_date s -> wf_date e ->
  StronglySorted Z.lt (tpmm_years s e) /\
  forall y, In y (tpmm_years s e) <->
            exists d, wf_date d /\ within (tpmm_start s) (tpmm_end e) d /\
                      Calendar.year d = y.
Proof.
  intros Hs He.
  destruct (tpmm_start_spec s Hs) as [Ws _].
  destruct (tpmm_end_spec e He) as [We _].
  unfold tpmm_years, set_of. split.
  - apply leb_lt_nodup.
    + apply sorted_sorted; [exact z_leb_total | exact z_leb_trans].
    + apply sorted_nodup, NoDup_nodup.
  - intros y. rewrite in_sorted, nodup_In, in_map_iff. split.
    + intros (d & Ey & Hd). apply in_date_range_D in Hd; try assumption.
      exists d. tauto.
    + intros (d & Wd & Hw & Ey). exists d. split; [exact Ey|].
      apply in_date_range_D; auto.
Qed.

Lemma year_within a b d :
  wf_date a -> wf_date b -> wf_date d -> within a b d ->
  Calendar.year a <= Calendar.year d <= Calendar.year b.
Proof.
  intros [Ha1 Ha2] [Hb1 Hb2] [Hd1 Hd2] [H1 H2].
  apply date_leb_iff in H1, H2; try (split; assumption).
  pose proof (days_in_month_bounds (Calendar.year a) (Calendar.month a)).
  pose proof (days_in_month_bounds (Calendar.year b) (Calendar.month b)).
  pose proof (days_in_month_bounds (Calendar.year d) (Calendar.month d)).
  unfold day_code, month_index in *. lia.
Qed.

Lemma tpmm_years_closed s e :
  wf_date s -> wf_date e -> date_leb s e = true ->
  tpmm_years s e
  = zrange (Calendar.year (tpmm_start s))
           (Z.to_nat (Calendar.year (tpmm_end e)
                      - Calendar.year (tpmm_start s) + 1)).
Proof.
  intros Hs He Hle.
  destruct (tpmm_years_spec s e Hs He) as [Hsorted Hin].
  destruct (tpmm_start_spec s Hs) as [Ws Is].
  destruct (tpmm_end_spec e He) as [We Ie].
  apply date_leb_iff in Hle; try assumption.
  assert (day_code (tpmm_start s) <= day_code (tpmm_end e)) as Hse.
  { pose proof Ws as [? Wsd]. pose proof We as [? Wed].
    pose proof Hs as [? Hsd]. pose proof He as [? Hed].
    pose proof (days_in_month_bounds (Calendar.year s) (Calendar.month s)).
    pose proof (days_in_month_bounds (Calendar.year e) (Calendar.month e)).
    pose proof (days_in_month_bounds (Calendar.year (tpmm_start s))
                                     (Calendar.month (tpmm_start s))).
    pose proof (days_in_month_bounds (Calendar.year (tpmm_end e))
                                     (Calendar.month (tpmm_end e))).
    unfold day_code in *. lia. }
  apply sorted_lt_ext; [assumption | apply zrange_sorted|].
  intros y. rewrite Hin, in_zrange. split.
  - intros (d & Wd & Hw & <-).
    pose proof (year_within _ _ _ Ws We Wd Hw). lia.
  - intros Hy.
    destruct (Z.eq_dec y (Calendar.year (tpmm_start s))) as [->|Hne].
    + exists (tpmm_start s). split; [assumption|]. split; [|reflexivity].
      split; apply date_leb_iff; auto; lia.
    + assert (wf_date (mkDate y 1 1)) as Wd
          by (unfold wf_date; cbn [Calendar.year Calendar.month day];
              pose proof (days_in_month_bounds y 1); lia).
      exists (mkDate y 1 1). split; [assumption|]. split; [|reflexivity].
      pose proof Ws as [? Wsd]. pose proof We as [? Wed].
      pose proof (days_in_month_bounds (Calendar.year (tpmm_start s))
                                       (Calendar.month (tpmm_start s))).
      split; apply date_leb_iff; auto;
        unfold day_code, month_index; cbn [Calendar.year Calendar.month day];
        lia.
Qed.



(** ** Worked runs *)

Example fmt_year_month :
  fmt_0d 4 2020 ++ fmt_0d 2 3 = "202003" /\ fmt_0d 4 (-5) = "-005"
  /\ fmt_0d 2 12 = "12" /\ fmt_0d 4 12345 = "12345".
Proof. repeat split; reflexivity. Qed.

Example date_range_M_2020 :
  date_range_M (mkDate 2020 1 5) (mkDate 2020 3 20)
  = [mkDate 2020 1 31; mkDate 2020 2 29]
  /\ date_range_M (mkDate 2020 1 31) (mkDate 2020 1 31) = [mkDate 2020 1 31]
  /\ date_range_M (mkDate 2020 3 1) (mkDate 2020 1 31) = [].
Proof. repeat split; reflexivity. Qed.

Example date_range_D_2020 :
  date_range_D (mkDate 2020 2 27) (mkDate 2020 3 2)
  = [mkDate 2020 2 27; mkDate 2020 2 28; mkDate 2020 2 29;
     mkDate 2020 3 1; mkDate 2020 3 2].
Proof. reflexivity. Qed.

Example relativedelta_clips_day :
  add_relativedelta_months (mkDate 2020 3 31) (-1) = mkDate 2020 2 29
  /\ add_relativedelta_months (mkDate 2020 1 15) (-1) = mkDate 2019 12 15
  /\ add_relativedelta_months (mkDate 2020 12 31) 1 = mkDate 2021 1 31.
Proof. repeat split; reflexivity. Qed.

(** January is on disk, February and March are fetched after "Y". *)
Example run_first_quarter_2020 :
  let isfile := fun p => (p =? "/data/SURF_202001.nc")%string in
  let run := retrieve_era5 isfile "Y" (fun _ => None) "reanalysis"
               (mkDate 2020 1 1) (mkDate 2020 3 31) "/data/"
               "47.9" "45.75" "10.6" "5.7" 6 10 "surf" None in
  map target
      (List.concat (map (fun ev => match ev with
                              | Starmap _ tasks => tasks
                              | _ => []
                              end) (trace run)))
  = ["/data/SURF_202002.nc"; "/data/SURF_202003.nc"]
  /\ filter (fun ev => negb (is_pool ev)) (trace run)
     = [IsFile "/data/SURF_202001.nc"; IsFile "/data/SURF_202002.nc";
        IsFile "/data/SURF_202003.nc";
        Input "---> Download ERA5 SURF data? (y/n)"]
  /\ outcome run = inr tt.
Proof. cbv zeta. repeat split; vm_compute; reflexivity. Qed.

(** The same months all on disk: no prompt, no pool. *)
Example run_nothing_pending :
  retrieve_era5 (fun _ => true) "n" (fun _ => None) "reanalysis"
    (mkDate 2020 1 1) (mkDate 2020 3 31) "/data/"
    "47.9" "45.75" "10.6" "5.7" 6 10 "surf" None
  = ([IsFile "/data/SURF_202001.nc"; IsFile "/data/SURF_202002.nc";
      IsFile "/data/SURF_202003.nc"], inr tt).
Proof. vm_compute. reflexivity. Qed.

(** Files missing and "n" typed: the run exits. *)
Example run_declined :
  outcome (retrieve_era5 (fun _ => false) "n" (fun _ => None) "reanalysis"
             (mkDate 2020 1 1) (mkDate 2020 3 31) "/data/"
             "47.9" "45.75" "10.6" "5.7" 6 10 "plev" (Some [500; 700]))
  = inl (SysExit declined_msg).
Proof. vm_compute. reflexivity. Qed.

(** * Further properties *)

(** ** The trace of a run in closed form *)

Lemma pending_rows isfile product eraDir bbox step prefix cell dates :
  pending (map (row_of isfile product eraDir bbox step prefix cell) dates)
  = map (row_of isfile product eraDir bbox step prefix cell)
        (missing isfile eraDir prefix dates).
Proof.
  unfold pending, missing. induction dates as [|x l IH]; [reflexivity|].
  cbn [map filter row_of Row.file_exist].
  destruct (isfile (target_name eraDir prefix x)); cbn [Z.eqb negb map];
    rewrite IH; reflexivity.
Qed.

Lemma surf_task_row isfile product eraDir bbox step l :
  map surf_task (map (row_of isfile product eraDir bbox step "SURF_" None) l)
  = map (request_of "surf" None bbox product step eraDir) l.
Proof. rewrite map_map. reflexivity. Qed.

Lemma plev_task_row isfile product eraDir bbox step plevels l :
  map (plev_task plevels)
      (map (row_of isfile product eraDir bbox step "PLEV_" (Some plevels)) l)
  = map (request_of "plev" plevels bbox product step eraDir) l.
Proof. rewrite map_map. reflexivity. Qed.

Lemma request_of_surf_any plevels plevels' bbox product step eraDir x :
  request_of "surf" plevels bbox product step eraDir x
  = request_of "surf" plevels' bbox product step eraDir x.
Proof. reflexivity. Qed.

(** The existence checks of the plan, then nothing, the prompt, or the
    prompt and the pool on the missing months. *)
Lemma run_trace_closed isfile ans pool product s e eraDir latN latS lonE lonW
      step num_threads surf_plev plevels :
  known_kind surf_plev ->
  trace (retrieve_era5 isfile ans pool product s e eraDir latN latS lonE lonW
                       step num_threads surf_plev plevels)
  = (map IsFile (map (target_name eraDir (prefix_of surf_plev))
                     (date_range_M s e))
     ++ match missing isfile eraDir (prefix_of surf_plev) (date_range_M s e)
        with
        | [] => []
        | _ :: _ =>
            if gate ans
            then [Input (prompt_of surf_plev);
                  Starmap num_threads
                    (map (request_of surf_plev plevels
                            (latN ++ "/" ++ lonW ++ "/" ++ latS ++ "/" ++ lonE)
                            product step eraDir)
                         (missing isfile eraDir (prefix_of surf_plev)
                                  (date_range_M s e)))]
            else [Input (prompt_of surf_plev)]
        end)%list.
Proof.
  intros [-> | ->]; unfold retrieve_era5.
  - rewrite build_frame_surf by reflexivity.
    rewrite bind_frame, fetch_shape_surf. cbn [trace fst].
    change (fst ?m) with (trace m). f_equal.
    unfold fetch_result. rewrite pending_rows, surf_task_row.
    change (prefix_of "surf") with "SURF_".
    destruct (date_range_M s e) as [|x l] eqn:Ed; [reflexivity|].
    cbn [map]. rewrite <- Ed.
    destruct (missing isfile eraDir "SURF_" (date_range_M s e)) as [|m0 ml];
      [reflexivity|].
    cbn [map]. destruct (gate ans); reflexivity.
  - rewrite build_frame_plev by reflexivity.
    rewrite bind_frame, (fetch_shape_plev _ _ _ _ plevels)
      by (intros r Hr; apply in_row_of_cell in Hr; tauto).
    cbn [trace fst]. change (fst ?m) with (trace m). f_equal.
    unfold fetch_result. rewrite pending_rows, plev_task_row.
    change (prefix_of "plev") with "PLEV_".
    destruct (date_range_M s e) as [|x l] eqn:Ed; [reflexivity|].
    cbn [map]. rewrite <- Ed.
    destruct (missing isfile eraDir "PLEV_" (date_range_M s e)) as [|m0 ml];
      [reflexivity|].
    cbn [map]. destruct (gate ans); reflexivity.
Qed.

Lemma run_trace_unknown_kind isfile ans pool product s e eraDir latN latS lonE lonW
      step num_threads surf_plev plevels :
  ~ known_kind surf_plev ->
  retrieve_era5 isfile ans pool product s e eraDir latN latS lonE lonW
                step num_threads surf_plev plevels
  = ([], inl (SysExit kind_msg)).
Proof.
  intros Hk. unfold retrieve_era5, known_kind in *.
  rewrite build_frame_other by tauto. reflexivity.
Qed.

Lemma known_kind_dec k : known_kind k \/ ~ known_kind k.
Proof.
  unfold known_kind.
  destruct (string_dec k "surf"); destruct (string_dec k "plev"); tauto.
Qed.

Lemma rows_known_kind isfile product s e eraDir latN latS lonE lonW
      step surf_plev plevels :
  known_kind surf_plev ->
  exists cell,
    build_frame isfile product s e eraDir latN latS lonE lonW
                step surf_plev plevels
    = (map IsFile (map (target_name eraDir (prefix_of surf_plev))
                       (date_range_M s e)),
       inr (map (row_of isfile product eraDir
                        (latN ++ "/" ++ lonW ++ "/" ++ latS ++ "/" ++ lonE)
                        step (prefix_of surf_plev) cell)
                (date_range_M s e))).
Proof.
  intros [-> | ->].
  - exists None. apply build_frame_surf. reflexivity.
  - exists (Some plevels). apply build_frame_plev. reflexivity.
Qed.

Lemma rows_unknown_kind isfile product s e eraDir latN latS lonE lonW
      step surf_plev plevels :
  ~ known_kind surf_plev ->
  build_frame isfile product s e eraDir latN latS lonE lonW
              step surf_plev plevels
  = ([], inl (SysExit kind_msg)).
Proof. intros Hk. unfold known_kind in Hk. apply build_frame_other; tauto. Qed.

Lemma pool_tasks_checks l : pool_tasks (map IsFile l) = [].
Proof. unfold pool_tasks. induction l as [|x l IH]; [reflexivity|exact IH]. Qed.

Lemma pool_tasks_app a b : pool_tasks (a ++ b) = (pool_tasks a ++ pool_tasks b)%list.
Proof. unfold pool_tasks. rewrite map_app, concat_app. reflexivity. Qed.

(** The tasks handed to the pool in a run. *)
Lemma pool_tasks_run isfile ans pool product s e eraDir latN latS lonE lonW
      step num_threads surf_plev plevels :
  pool_tasks (trace (retrieve_era5 isfile ans pool product s e eraDir latN latS
                                   lonE lonW step num_threads surf_plev
                                   plevels))
  = if gate ans && (if string_dec surf_plev "surf" then true
                    else if string_dec surf_plev "plev" then true else false)
    then map (request_of surf_plev plevels
                (latN ++ "/" ++ lonW ++ "/" ++ latS ++ "/" ++ lonE)
                product step eraDir)
             (missing isfile eraDir (prefix_of surf_plev) (date_range_M s e))
    else [].
Proof.
  destruct (known_kind_dec surf_plev) as [Hk|Hk].
  - rewrite run_trace_closed by assumption.
    rewrite pool_tasks_app, pool_tasks_checks. cbn [app].
    assert ((if string_dec surf_plev "surf" then true
             else if string_dec surf_plev "plev" then true else false) = true)
      as -> by (destruct Hk as [-> | ->]; reflexivity).
    rewrite andb_true_r.
    destruct (missing _ _ _ _) as [|m0 ml]; [destruct (gate ans); reflexivity|].
    destruct (gate ans); [|reflexivity].
    unfold pool_tasks. cbn [map List.concat]. rewrite app_nil_r. reflexivity.
  - rewrite run_trace_unknown_kind by assumption.
    unfold known_kind in Hk.
    destruct (string_dec surf_plev "surf"); [tauto|].
    destruct (string_dec surf_plev "plev"); [tauto|].
    rewrite andb_false_r. reflexivity.
Qed.

(** How a run of a known kind ends. *)
Lemma run_outcome_closed isfile ans pool product s e eraDir latN latS lonE lonW
      step num_threads surf_plev plevels :
  known_kind surf_plev ->
  outcome (retrieve_era5 isfile ans pool product s e eraDir latN latS lonE
                         lonW step num_threads surf_plev plevels)
  = match date_range_M s e with
    | [] => inl (KeyError 0)
    | _ :: _ =>
        match missing isfile eraDir (prefix_of surf_plev) (date_range_M s e)
        with
        | [] => inr tt
        | _ :: _ =>
            if gate ans
            then pool_outcome pool num_threads
                   (map (request_of surf_plev plevels
                           (latN ++ "/" ++ lonW ++ "/" ++ latS ++ "/" ++ lonE)
                           product step eraDir)
                        (missing isfile eraDir (prefix_of surf_plev)
                                 (date_range_M s e)))
            else inl (SysExit declined_msg)
        end
    end.
Proof.
  intros [-> | ->]; unfold retrieve_era5.
  - rewrite build_frame_surf by reflexivity.
    rewrite bind_frame, fetch_shape_surf. cbn [outcome snd].
    change (snd ?m) with (outcome m).
    unfold fetch_result. rewrite pending_rows, surf_task_row.
    change (prefix_of "surf") with "SURF_".
    destruct (date_range_M s e) as [|x l] eqn:Ed; [reflexivity|].
    cbn [map]. rewrite <- Ed.
    destruct (missing isfile eraDir "SURF_" (date_range_M s e)) as [|m0 ml];
      [reflexivity|].
    cbn [map]. destruct (gate ans); reflexivity.
  - rewrite build_frame_plev by reflexivity.
    rewrite bind_frame, (fetch_shape_plev _ _ _ _ plevels)
      by (intros r Hr; apply in_row_of_cell in Hr; tauto).
    cbn [outcome snd]. change (snd ?m) with (outcome m).
    unfold fetch_result. rewrite pending_rows, plev_task_row.
    change (prefix_of "plev") with "PLEV_".
    destruct (date_range_M s e) as [|x l] eqn:Ed; [reflexivity|].
    cbn [map]. rewrite <- Ed.
    destruct (missing isfile eraDir "PLEV_" (date_range_M s e)) as [|m0 ml];
      [reflexivity|].
    cbn [map]. destruct (gate ans); reflexivity.
Qed.

Lemma kind_test k :
  ((k =? "surf") || (k =? "plev"))%string = true <-> known_kind k.
Proof.
  unfold known_kind. rewrite orb_true_iff, !String.eqb_eq. tauto.
Qed.

Lemma kind_test_false k :
  ~ known_kind k -> ((k =? "surf") || (k =? "plev"))%string = false.
Proof.
  intros Hk. destruct (_ || _)%bool eqn:E; [|reflexivity].
  apply kind_test in E. contradiction.
Qed.

(** A run asks the pool exactly when lines 59-92 lead there. *)
Lemma uses_pool_run isfile ans pool product s e eraDir latN latS lonE lonW
      step num_threads surf_plev plevels :
  uses_pool (retrieve_era5 isfile ans pool product s e eraDir latN latS lonE
                           lonW step num_threads surf_plev plevels)
  = reaches_pool isfile ans s e eraDir surf_plev.
Proof.
  unfold uses_pool, reaches_pool.
  destruct (known_kind_dec surf_plev) as [Hk|Hk].
  - rewrite run_trace_closed by assumption.
    rewrite (proj2 (kind_test surf_plev) Hk), existsb_app, no_pool_in_checks.
    cbn [orb andb].
    destruct (missing _ _ _ _) as [|m0 ml]; [reflexivity|].
    destruct (gate ans); reflexivity.
  - rewrite run_trace_unknown_kind, kind_test_false by assumption.
    reflexivity.
Qed.

(** A run that does not ask the pool is told by the dates, the directory,
    the kind, the files on disk and the answer alone. *)
Lemma run_without_pool isfile ans pool product s e eraDir latN latS lonE lonW
      step num_threads surf_plev plevels :
  reaches_pool isfile ans s e eraDir surf_plev = false ->
  retrieve_era5 isfile ans pool product s e eraDir latN latS lonE lonW
                step num_threads surf_plev plevels
  = quiet_run isfile ans s e eraDir surf_plev.
Proof.
  unfold reaches_pool, quiet_run. intros Hq.
  destruct (known_kind_dec surf_plev) as [Hk|Hk].
  - rewrite (proj2 (kind_test surf_plev) Hk) in *. cbn [andb] in Hq.
    rewrite (surjective_pairing (retrieve_era5 _ _ _ _ _ _ _ _ _ _ _ _ _ _ _)).
    change (fst ?m) with (trace m). change (snd ?m) with (outcome m).
    rewrite run_trace_closed, run_outcome_closed by assumption.
    cbv zeta.
    destruct (date_range_M s e) as [|x l] eqn:Ed; [reflexivity|].
    rewrite <- Ed in *.
    destruct (missing _ _ _ _) as [|m0 ml]; [reflexivity|].
    rewrite Hq. reflexivity.
  - rewrite run_trace_unknown_kind, kind_test_false by assumption.
    reflexivity.
Qed.


(** ** Steps and pressure levels that are not checked *)

Lemma dict_get_other_step step :
  step <> 1 -> step <> 3 -> step <> 6 -> dict_get time_step_dict step = None.
Proof.
  intros H1 H3 H6. unfold time_step_dict. cbn [dict_get].
  apply Z.eqb_neq in H1, H3, H6. rewrite H1, H3, H6. reflexivity.
Qed.

Lemma request_params surf_plev plevels bbox product step eraDir x :
  known_kind surf_plev ->
  param (request_of surf_plev plevels bbox product step eraDir x) "time"
  = Some (opt_strs (dict_get time_step_dict step))
  /\ (surf_plev = "plev" ->
      param (request_of surf_plev plevels bbox product step eraDir x)
            "pressure_level"
      = Some (opt_ints plevels)).
Proof.
  intros [-> | ->]; split; try reflexivity; discriminate.
Qed.

Lemma in_pool_tasks_run isfile ans pool product s e eraDir latN latS lonE lonW
      step num_threads surf_plev plevels c :
  In c (pool_tasks (trace (retrieve_era5 isfile ans pool product s e eraDir
                             latN latS lonE lonW step num_threads surf_plev
                             plevels))) ->
  known_kind surf_plev /\
  exists x,
    c = request_of surf_plev plevels
          (latN ++ "/" ++ lonW ++ "/" ++ latS ++ "/" ++ lonE)
          product step eraDir x.
Proof.
  rewrite pool_tasks_run. unfold known_kind.
  destruct (string_dec surf_plev "surf") as [-> | H1];
    [|destruct (string_dec surf_plev "plev") as [-> | H2]];
    destruct (gate ans); cbn [andb]; try contradiction;
    intros Hc; apply in_map_iff in Hc; destruct Hc as (x & <- & _);
    (split; [auto|]); exists x; reflexivity.
Qed.

(** C3, amended: a [step] other than 1, 3 and 6 is not rejected.  The
    lookup [time_step_dict.get(step)] gives [None], every row of the plan
    carries [None] as its time steps and so does every request handed to
    the pool; the pool is asked in the same cases as for [step = 1], and a
    run that does not ask the pool is the same run as for [step = 1]. *)
Theorem other_step_is_not_rejected
    isfile ans pool product s e eraDir latN latS lonE lonW
    step num_threads surf_plev plevels :
  step <> 1 -> step <> 3 -> step <> 6 ->
  let run := fun st =>
    retrieve_era5 isfile ans pool product s e eraDir latN latS lonE lonW
                  st num_threads surf_plev plevels in
  dict_get time_step_dict step = None
  /\ Forall (fun r => Row.time_steps r = None)
            (rows_of (build_frame isfile product s e eraDir latN latS lonE
                                  lonW step surf_plev plevels))
  /\ Forall (fun c => param c "time" = Some VNone)
            (pool_tasks (trace (run step)))
  /\ uses_pool (run step) = uses_pool (run 1)
  /\ (uses_pool (run step) = false -> run step = run 1).
Proof.
  intros H1 H3 H6 run. subst run. cbv beta.
  pose proof (dict_get_other_step step H1 H3 H6) as Hd.
  split; [exact Hd|]. split; [|split; [|split]].
  - destruct (rows_of_cases isfile product s e eraDir latN latS lonE lonW
                step surf_plev plevels) as [-> | (prefix & cell & _ & ->)];
      [constructor|].
    apply Forall_forall. intros r Hr. apply in_row_of_cell in Hr.
    destruct Hr as (_ & -> & _). exact Hd.
  - apply Forall_forall. intros c Hc.
    apply in_pool_tasks_run in Hc. destruct Hc as (Hk & x & ->).
    destruct (request_params surf_plev plevels
                (latN ++ "/" ++ lonW ++ "/" ++ latS ++ "/" ++ lonE)
                product step eraDir x Hk) as [-> _].
    rewrite Hd. reflexivity.
  - rewrite !uses_pool_run. reflexivity.
  - rewrite uses_pool_run. intros Hq.
    rewrite !run_without_pool by exact Hq. reflexivity.
Qed.

Lemma other_step_is_not_rejected_witness :
  Forall (fun r => Row.time_steps r = None)
         (rows_of (build_frame (fun _ => true) "reanalysis"
                     (mkDate 2020 1 1) (mkDate 2020 3 31) "/data/"
                     "47.9" "45.75" "10.6" "5.7" 2 "surf" None))
  /\ retrieve_era5 (fun _ => true) "n" (fun _ => None) "reanalysis"
       (mkDate 2020 1 1) (mkDate 2020 3 31) "/data/"
       "47.9" "45.75" "10.6" "5.7" 2 10 "surf" None
     = retrieve_era5 (fun _ => true) "n" (fun _ => None) "reanalysis"
         (mkDate 2020 1 1) (mkDate 2020 3 31) "/data/"
         "47.9" "45.75" "10.6" "5.7" 1 10 "surf" None.
Proof.
  destruct (other_step_is_not_rejected (fun _ => true) "n" (fun _ => None)
              "reanalysis" (mkDate 2020 1 1) (mkDate 2020 3 31) "/data/"
              "47.9" "45.75" "10.6" "5.7" 2 10 "surf" None)
    as (_ & H & _ & _ & E); try discriminate.
  split; [exact H|]. apply E. reflexivity.
Defined.

(** C3 as stated fails: with [step = 2] and the three monthly files on
    disk the frame is built and the call returns; it does not fail. *)
Lemma step_two_is_accepted :
  ~ fails (retrieve_era5 (fun _ => true) "n" (fun _ => None) "reanalysis"
             (mkDate 2020 1 1) (mkDate 2020 3 31) "/data/"
             "47.9" "45.75" "10.6" "5.7" 2 10 "surf" None)
  /\ ~ fails (build_frame (fun _ => false) "reanalysis"
                (mkDate 2020 1 1) (mkDate 2020 3 31) "/data/"
                "47.9" "45.75" "10.6" "5.7" 2 "surf" None).
Proof.
  split; intros [f Hf]; vm_compute in Hf; discriminate Hf.
Qed.

(** C4, amended: with [surf_plev = "plev"] the value of [plevels] is not
    checked.  Whatever it is ([None], an empty list, a non-empty list) the
    plan is built, every row carries that same value and so does every
    request handed to the pool; the pool is asked in the same cases
    whatever [plevels] is, and a run that does not ask the pool does not
    depend on it. *)
Theorem plevels_attached_unchecked
    isfile ans pool product s e eraDir latN latS lonE lonW
    step num_threads surf_plev plevels :
  surf_plev = "plev" ->
  let run := fun pl =>
    retrieve_era5 isfile ans pool product s e eraDir latN latS lonE lonW
                  step num_threads surf_plev pl in
  ~ fails (build_frame isfile product s e eraDir latN latS lonE lonW
                       step surf_plev plevels)
  /\ Forall (fun r => Row.plevels r = Some plevels)
            (rows_of (build_frame isfile product s e eraDir latN latS lonE
                                  lonW step surf_plev plevels))
  /\ Forall (fun c => param c "pressure_level" = Some (opt_ints plevels))
            (pool_tasks (trace (run plevels)))
  /\ (forall plevels',
        uses_pool (run plevels) = uses_pool (run plevels')
        /\ (uses_pool (run plevels) = false -> run plevels = run plevels')).
Proof.
  intros -> run. subst run. cbv beta. split; [|split; [|split]].
  - rewrite build_frame_plev by reflexivity. intros [f Hf]. discriminate Hf.
  - rewrite build_frame_plev by reflexivity. unfold rows_of. cbn [outcome snd].
    apply Forall_forall. intros r Hr. apply in_row_of_cell in Hr. tauto.
  - apply Forall_forall. intros c Hc.
    apply in_pool_tasks_run in Hc. destruct Hc as (Hk & x & ->).
    apply (request_params "plev" plevels); [exact Hk|reflexivity].
  - intros plevels'. rewrite !uses_pool_run. split; [reflexivity|].
    intros Hq. rewrite !run_without_pool by exact Hq. reflexivity.
Qed.

Lemma plevels_attached_unchecked_witness :
  Forall (fun r => Row.plevels r = Some None)
         (rows_of (build_frame (fun _ => false) "reanalysis"
                     (mkDate 2020 1 1) (mkDate 2020 3 31) "/data/"
                     "47.9" "45.75" "10.6" "5.7" 6 "plev" None))
  /\ Forall (fun r => Row.plevels r = Some (Some [500; 700; 1000]))
         (rows_of (build_frame (fun _ => false) "reanalysis"
                     (mkDate 2020 1 1) (mkDate 2020 3 31) "/data/"
                     "47.9" "45.75" "10.6" "5.7" 6 "plev"
                     (Some [500; 700; 1000]))).
Proof.
  split.
  - apply (plevels_attached_unchecked (fun _ => false) "y" (fun _ => None)
             "reanalysis" (mkDate 2020 1 1) (mkDate 2020 3 31) "/data/"
             "47.9" "45.75" "10.6" "5.7" 6 10 "plev" None eq_refl).
  - apply (plevels_attached_unchecked (fun _ => false) "y" (fun _ => None)
             "reanalysis" (mkDate 2020 1 1) (mkDate 2020 3 31) "/data/"
             "47.9" "45.75" "10.6" "5.7" 6 10 "plev"
             (Some [500; 700; 1000]) eq_refl).
Defined.

(** C4 as stated fails: with [surf_plev = "plev"], no [plevels] (or an
    empty list) and the three monthly files on disk, the call returns; and
    with no file on disk the frame is built all the same. *)
Lemma plev_without_levels_is_accepted :
  ~ fails (retrieve_era5 (fun _ => true) "n" (fun _ => None) "reanalysis"
             (mkDate 2020 1 1) (mkDate 2020 3 31) "/data/"
             "47.9" "45.75" "10.6" "5.7" 6 10 "plev" None)
  /\ ~ fails (retrieve_era5 (fun _ => true) "n" (fun _ => None) "reanalysis"
                (mkDate 2020 1 1) (mkDate 2020 3 31) "/data/"
                "47.9" "45.75" "10.6" "5.7" 6 10 "plev" (Some []))
  /\ ~ fails (build_frame (fun _ => false) "reanalysis"
                (mkDate 2020 1 1) (mkDate 2020 3 31) "/data/"
                "47.9" "45.75" "10.6" "5.7" 6 "plev" None).
Proof.
  repeat split; intros [f Hf]; vm_compute in Hf; discriminate Hf.
Qed.

(** ** Existence checks and the pool *)

Lemma filter_map_comm {A B} (f : A -> B) (p : B -> bool) l :
  filter p (map f l) = map f (filter (fun x => p (f x)) l).
Proof.
  induction l as [|x l IH]; [reflexivity|].
  cbn [map filter]. destruct (p (f x)); cbn [map]; rewrite IH; reflexivity.
Qed.

Lemma logged_rows isfile product eraDir bbox step prefix cell dates v :
  logged v (map (row_of isfile product eraDir bbox step prefix cell) dates)
  = filter (fun p => (if isfile p then 1 else 0) =? v)
           (map (target_name eraDir prefix) dates).
Proof.
  unfold logged. rewrite (filter_map_comm (target_name eraDir prefix)).
  induction dates as [|x l IH]; [reflexivity|].
  cbn [map filter row_of Row.file_exist].
  destruct (_ =? v); cbn [map]; rewrite IH; reflexivity.
Qed.

(** X1: building the frame checks the target file of every row of the plan
    exactly once and in plan order; a row is pending exactly when its file
    is not on disk, and the found and the missing files (lines 79 and 81)
    are the plan's files on disk and not on disk, each in plan order. *)
Theorem existence_checks_follow_plan
    isfile product s e eraDir latN latS lonE lonW step surf_plev plevels :
  let frame := build_frame isfile product s e eraDir latN latS lonE lonW
                           step surf_plev plevels in
  trace frame = map IsFile (map Row.target_file (rows_of frame))
  /\ Forall (fun r => Row.file_exist r
                      = if isfile (Row.target_file r) then 1 else 0)
            (rows_of frame)
  /\ map Row.target_file (pending_of frame)
     = filter (fun p => negb (isfile p)) (map Row.target_file (rows_of frame))
  /\ logged 1 (rows_of frame)
     = filter isfile (map Row.target_file (rows_of frame))
  /\ logged 0 (rows_of frame)
     = filter (fun p => negb (isfile p)) (map Row.target_file (rows_of frame)).
Proof.
  intros frame. subst frame.
  destruct (known_kind_dec surf_plev) as [Hk|Hk].
  - destruct (rows_known_kind isfile product s e eraDir latN latS lonE lonW
                step surf_plev plevels Hk) as [cell ->].
    unfold pending_of, rows_of. cbn [trace outcome fst snd].
    rewrite target_files_rows, pending_rows, target_files_rows, !logged_rows.
    split; [reflexivity|]. split.
    { apply Forall_forall. intros r Hr. apply in_map_iff in Hr.
      destruct Hr as (x & <- & _). reflexivity. }
    split.
    { unfold missing. rewrite filter_map_comm. reflexivity. }
    split; apply filter_ext; intros p; destruct (isfile p); reflexivity.
  - rewrite rows_unknown_kind by assumption.
    unfold pending_of, rows_of. cbn. repeat split. constructor.
Qed.


(** X3: every request handed to the pool is the request of one month of
    the plan: its [year] and [month] parameters are those in the name of
    the file it writes, it carries the caller's product type, the area
    N/W/S/E, the days 01..31 and the time steps of [step]; a surface
    request goes to the single-levels dataset and has no [pressure_level],
    a pressure-level request goes to the pressure-levels dataset with the
    caller's [plevels]. *)
Theorem dispatched_requests_match_their_file
    isfile ans pool product s e eraDir latN latS lonE lonW
    step num_threads surf_plev plevels :
  Forall
    (fun c =>
       exists x,
         In x (date_range_M s e)
         /\ target c = eraDir ++ month_file (prefix_of surf_plev) x
         /\ param c "year" = Some (VInt (Calendar.year x))
         /\ param c "month" = Some (VInt (Calendar.month x))
         /\ param c "day" = Some (VStrs days_01_31)
         /\ param c "product_type" = Some (VStr product)
         /\ param c "area"
            = Some (VStr (latN ++ "/" ++ lonW ++ "/" ++ latS ++ "/" ++ lonE))
         /\ param c "time" = Some (opt_strs (dict_get time_step_dict step))
         /\ (surf_plev = "surf" ->
             dataset c = "reanalysis-era5-single-levels"
             /\ param c "pressure_level" = None)
         /\ (surf_plev = "plev" ->
             dataset c = "reanalysis-era5-pressure-levels"
             /\ param c "pressure_level" = Some (opt_ints plevels)))
    (pool_tasks (trace (retrieve_era5 isfile ans pool product s e eraDir latN latS
                                      lonE lonW step num_threads surf_plev
                                      plevels))).
Proof.
  rewrite pool_tasks_run. apply Forall_forall. intros c Hc.
  destruct (string_dec surf_plev "surf") as [-> | H1];
    [|destruct (string_dec surf_plev "plev") as [-> | H2]];
    destruct (gate ans); cbn [andb] in Hc; try contradiction;
    apply in_map_iff in Hc; destruct Hc as (x & <- & Hx);
    apply filter_In in Hx; destruct Hx as [Hx _]; exists x;
    (split; [exact Hx|]);
    repeat split; try reflexivity; intros; discriminate.
Qed.

(** X4: whatever the inputs, a run makes its existence checks first and
    after them nothing, or one prompt, or one prompt followed by one pool
    with at least one request; it never checks a file after the prompt,
    asks twice, or starts a second pool. *)
Theorem run_trace_shape
    isfile ans pool product s e eraDir latN latS lonE lonW
    step num_threads surf_plev plevels :
  exists checks tail,
    trace (retrieve_era5 isfile ans pool product s e eraDir latN latS lonE lonW
                         step num_threads surf_plev plevels)
    = (map IsFile checks ++ tail)%list
    /\ (tail = []
        \/ tail = [Input (prompt_of surf_plev)]
        \/ exists tasks,
             tasks <> [] /\
             tail = [Input (prompt_of surf_plev); Starmap num_threads tasks]).
Proof.
  destruct (known_kind_dec surf_plev) as [Hk|Hk].
  - rewrite run_trace_closed by assumption.
    eexists _, _. split; [reflexivity|].
    destruct (missing _ _ _ _) as [|m0 ml]; [auto|].
    destruct (gate ans); [|auto].
    right; right. eexists. split; [|reflexivity]. discriminate.
  - rewrite run_trace_unknown_kind by assumption.
    exists [], []. auto.
Qed.

(** ** How a run fails, and when the plan is empty *)

Lemma on_offset_is_month_end d :
  wf_date d -> is_on_offset d = true ->
  d = month_end_of_index (month_index d).
Proof.
  intros [Hm Hd] Hon. unfold is_on_offset in Hon. apply Z.eqb_eq in Hon.
  rewrite month_end_of_month_index by assumption.
  destruct d as [y m dd]. cbn [Calendar.year Calendar.month day] in *.
  unfold month_end. congruence.
Qed.

Lemma date_range_M_nil_iff s e :
  wf_date s -> wf_date e ->
  date_range_M s e = [] <-> no_month_end s e.
Proof.
  intros Hs He. split; [|apply date_range_M_empty; assumption].
  intros E d Wd Hon Hw.
  assert (In d (date_range_M s e)) as Hin.
  { apply in_date_range_M; try assumption.
    exists (month_index d). split; [|exact Hw].
    apply on_offset_is_month_end; assumption. }
  rewrite E in Hin. exact Hin.
Qed.

Lemma date_range_M_length s e :
  wf_date s -> wf_date e ->
  List.length (date_range_M s e)
  = Z.to_nat (last_ended_index e - month_index s + 1).
Proof.
  intros Hs He. rewrite date_range_M_closed by assumption.
  rewrite length_map. apply zrange_length.
Qed.







(** X6: when [endDate] is the last day of its month, the plan does hold
    one row for every calendar month from [startDate]'s to [endDate]'s. *)
Theorem plan_covers_span_when_end_is_month_end
    isfile product s e eraDir latN latS lonE lonW step surf_plev plevels :
  valid_date s -> valid_date e -> known_kind surf_plev ->
  is_on_offset e = true ->
  covers_span_months
    (build_frame isfile product s e eraDir latN latS lonE lonW
                 step surf_plev plevels) s e.
Proof.
  intros Hs He Hk Hon. unfold covers_span_months.
  destruct (rows_known_kind isfile product s e eraDir latN latS lonE lonW
              step surf_plev plevels Hk) as [cell ->].
  unfold rows_of. cbn [outcome snd].
  rewrite plan_months_rows, date_range_M_closed by (apply valid_wf; assumption).
  rewrite map_map. unfold months_in_span, last_ended_index. rewrite Hon.
  reflexivity.
Qed.

Lemma plan_covers_span_when_end_is_month_end_witness :
  covers_span_months
    (build_frame (fun _ => false) "reanalysis"
       (mkDate 2019 11 17) (mkDate 2020 2 29) "/data/"
       "47.9" "45.75" "10.6" "5.7" 6 "plev" (Some [500]))
    (mkDate 2019 11 17) (mkDate 2020 2 29).
Proof.
  apply (plan_covers_span_when_end_is_month_end (fun _ => false) "reanalysis"
           (mkDate 2019 11 17) (mkDate 2020 2 29) "/data/"
           "47.9" "45.75" "10.6" "5.7" 6 "plev" (Some [500])
           eq_refl eq_refl (or_intror eq_refl) eq_refl).
Defined.

(** X7: the plan has as many rows as months end within the dates, from
    [startDate]'s own month on; it is empty exactly when no month ends
    within the dates, that is when the last month ended by [endDate] comes
    before [startDate]'s month (the dates lie inside one month and
    [endDate] is not its last day, or [endDate] is before [startDate]). *)
Theorem plan_size_and_emptiness
    isfile product s e eraDir latN latS lonE lonW step surf_plev plevels :
  valid_date s -> valid_date e -> known_kind surf_plev ->
  let plan := rows_of (build_frame isfile product s e eraDir latN latS lonE
                                   lonW step surf_plev plevels) in
  List.length plan = Z.to_nat (last_ended_index e - month_index s + 1)
  /\ (plan = [] <-> no_month_end s e)
  /\ (plan = [] <-> last_ended_index e < month_index s).
Proof.
  intros Hs He Hk plan. subst plan.
  pose proof (valid_wf _ Hs) as Ws. pose proof (valid_wf _ He) as We.
  destruct (rows_known_kind isfile product s e eraDir latN latS lonE lonW
              step surf_plev plevels Hk) as [cell ->].
  unfold rows_of. cbn [outcome snd].
  assert (forall l : list date,
            map (row_of isfile product eraDir
                   (latN ++ "/" ++ lonW ++ "/" ++ latS ++ "/" ++ lonE)
                   step (prefix_of surf_plev) cell) l = [] <-> l = []) as Hmap
      by (intros [|x l]; cbn [map]; split; congruence).
  rewrite length_map, !Hmap, date_range_M_length by assumption.
  split; [reflexivity|]. split; [apply date_range_M_nil_iff; assumption|].
  rewrite <- length_zero_iff_nil, date_range_M_length by assumption. lia.
Qed.

Lemma plan_size_and_emptiness_witness :
  List.length
    (rows_of (build_frame (fun _ => false) "reanalysis"
                (mkDate 2019 11 17) (mkDate 2020 3 30) "/data/"
                "47.9" "45.75" "10.6" "5.7" 6 "surf" None)) = 4%nat.
Proof.
  pose proof (plan_size_and_emptiness (fun _ => false) "reanalysis"
                (mkDate 2019 11 17) (mkDate 2020 3 30) "/data/"
                "47.9" "45.75" "10.6" "5.7" 6 "surf" None
                eq_refl eq_refl (or_introl eq_refl)) as H.
  cbv zeta in H. destruct H as (H & _). rewrite H. reflexivity.
Defined.

(** ** File names *)

(** X8: in one directory the file of a surface month is never the file of
    a pressure-level month: the two kinds of download cannot overwrite each
    other, whatever the dates and the other arguments. *)
Theorem surf_and_plev_files_are_disjoint
    isfile isfile' product product' s e s' e' eraDir
    latN latS lonE lonW latN' latS' lonE' lonW' step step' plevels plevels' :
  forall r r',
    In r (rows_of (build_frame isfile product s e eraDir latN latS lonE lonW
                               step "surf" plevels)) ->
    In r' (rows_of (build_frame isfile' product' s' e' eraDir latN' latS'
                                lonE' lonW' step' "plev" plevels')) ->
    Row.target_file r <> Row.target_file r'.
Proof.
  intros r r'.
  rewrite build_frame_surf, build_frame_plev by reflexivity.
  unfold rows_of. cbn [outcome snd]. intros Hr Hr'.
  apply in_map_iff in Hr, Hr'.
  destruct Hr as (x & <- & _), Hr' as (x' & <- & _).
  cbn [row_of Row.target_file]. unfold target_name. intros E.
  apply append_inv_head in E. discriminate E.
Qed.

Lemma surf_and_plev_files_are_disjoint_witness :
  Row.target_file
    (row_of (fun _ => false) "reanalysis" "/data/" "47.9/5.7/45.75/10.6" 6
            "SURF_" None (mkDate 2020 1 31))
  <> Row.target_file
       (row_of (fun _ => false) "reanalysis" "/data/" "47.9/5.7/45.75/10.6" 6
               "PLEV_" (Some (Some [500])) (mkDate 2020 1 31)).
Proof.
  apply (surf_and_plev_files_are_disjoint (fun _ => false) (fun _ => false)
           "reanalysis" "reanalysis"
           (mkDate 2020 1 1) (mkDate 2020 3 31)
           (mkDate 2020 1 1) (mkDate 2020 3 31) "/data/"
           "47.9" "45.75" "10.6" "5.7" "47.9" "45.75" "10.6" "5.7"
           6 6 None (Some [500]));
    vm_compute; left; reflexivity.
Defined.

Lemma split_on_no_sep s : no_slash s = true -> split_on "/" s = [s].
Proof.
  induction s as [|a s IH]; [reflexivity|].
  cbn [no_slash split_on]. intros H. apply andb_prop in H. destruct H as [Ha Hs].
  rewrite (IH Hs). apply negb_true_iff in Ha. rewrite Ha. reflexivity.
Qed.

Lemma split_on_ends a b :
  no_slash b = true ->
  exists pre, pre <> [] /\ split_on "/" (a ++ "/" ++ b) = (pre ++ [b])%list.
Proof.
  intros Hb. induction a as [|x a IH].
  - exists [EmptyString]. split; [discriminate|].
    cbn [append split_on]. rewrite (split_on_no_sep b Hb). reflexivity.
  - destruct IH as (pre & Hne & E). cbn [append split_on].
    change (a ++ String "/" b) with (a ++ "/" ++ b). rewrite E.
    destruct pre as [|w pre']; [congruence|]. cbn [app].
    destruct (Ascii.eqb x "/").
    + exists (EmptyString :: w :: pre'). split; [discriminate|reflexivity].
    + exists (String x w :: pre'). split; [discriminate|reflexivity].
Qed.

(** What follows the last '/' is what [split('/')[-1]] gives. *)
Lemma last_component_after_slash a b :
  no_slash b = true -> last_component (a ++ "/" ++ b) = b.
Proof.
  intros Hb. unfold last_component.
  destruct (split_on_ends a b Hb) as (pre & _ & ->). apply last_last.
Qed.

Lemma no_slash_app a b : no_slash (a ++ b) = no_slash a && no_slash b.
Proof.
  induction a as [|x a IH]; [reflexivity|].
  cbn [append no_slash]. rewrite IH, andb_assoc. reflexivity.
Qed.

Lemma no_slash_month_file prefix x :
  no_slash prefix = true ->
  1678 <= Calendar.year x <= 2261 -> 1 <= Calendar.month x <= 12 ->
  no_slash (month_file prefix x) = true.
Proof.
  intros Hp Hy Hm. unfold month_file. rewrite !no_slash_app, Hp.
  assert (forallb (fun y => no_slash (fmt_0d 4 y)) (zrange 1678 584) = true)
    as H4 by (vm_compute; reflexivity).
  assert (forallb (fun m => no_slash (fmt_0d 2 m)) (zrange 1 12) = true)
    as H2 by (vm_compute; reflexivity).
  rewrite forallb_forall in H4, H2.
  rewrite H4 by (apply in_zrange; lia). rewrite H2 by (apply in_zrange; lia).
  reflexivity.
Qed.

Lemma append_assoc (a b c : string) : (a ++ b) ++ c = a ++ b ++ c.
Proof. induction a as [|x a IH]; [reflexivity|]. cbn. rewrite IH. reflexivity. Qed.

Lemma dates_of_plan_valid s e x :
  valid_date s -> valid_date e -> In x (date_range_M s e) ->
  1678 <= Calendar.year x <= 2261 /\ 1 <= Calendar.month x <= 12.
Proof.
  intros Hs He Hx.
  rewrite date_range_M_closed in Hx by (apply valid_wf; assumption).
  apply in_map_iff in Hx. destruct Hx as (i & <- & Hi).
  apply (year_in_range s e i Hs He Hi).
Qed.

(** X9: with a directory written with its final '/', the names printed on
    lines 84 and 86 are the bare file names [SURF_YYYYMM.nc] /
    [PLEV_YYYYMM.nc], without the directory, of the plan's months on disk
    and not on disk. *)
Theorem printed_names_are_file_names
    isfile product s e dir latN latS lonE lonW step surf_plev plevels :
  valid_date s -> valid_date e -> known_kind surf_plev ->
  let eraDir := dir ++ "/" in
  let plan := rows_of (build_frame isfile product s e eraDir latN latS lonE
                                   lonW step surf_plev plevels) in
  printed 1 plan
  = map (month_file (prefix_of surf_plev))
        (filter (fun x => isfile (target_name eraDir (prefix_of surf_plev) x))
                (date_range_M s e))
  /\ printed 0 plan
     = map (month_file (prefix_of surf_plev))
           (missing isfile eraDir (prefix_of surf_plev) (date_range_M s e)).
Proof.
  intros Hs He Hk eraDir plan. subst plan.
  destruct (rows_known_kind isfile product s e eraDir latN latS lonE lonW
              step surf_plev plevels Hk) as [cell ->].
  unfold rows_of, printed. cbn [outcome snd]. rewrite !logged_rows.
  assert (forall l, (forall x, In x l -> In x (date_range_M s e)) ->
            map last_component
                (map (target_name eraDir (prefix_of surf_plev)) l)
            = map (month_file (prefix_of surf_plev)) l) as Hnames.
  { intros l Hl. rewrite map_map. apply map_ext_in. intros x Hx.
    destruct (dates_of_plan_valid s e x Hs He (Hl x Hx)) as [Hy Hm].
    unfold target_name, eraDir. rewrite append_assoc.
    change (prefix_of surf_plev ++ fmt_0d 4 (Calendar.year x)
              ++ fmt_0d 2 (Calendar.month x) ++ ".nc")
      with (month_file (prefix_of surf_plev) x).
    apply last_component_after_slash, no_slash_month_file; try assumption.
    destruct Hk as [-> | ->]; reflexivity. }
  split.
  - rewrite filter_map_comm, Hnames
      by (intros x Hx; apply filter_In in Hx; tauto).
    f_equal. apply filter_ext. intros x.
    destruct (isfile _); reflexivity.
  - rewrite filter_map_comm, Hnames
      by (intros x Hx; apply filter_In in Hx; tauto).
    f_equal. unfold missing. apply filter_ext. intros x.
    destruct (isfile _); reflexivity.
Qed.

Lemma printed_names_are_file_names_witness :
  printed 0 (rows_of (build_frame
                        (fun p => (p =? "/data/SURF_202001.nc")%string)
                        "reanalysis" (mkDate 2020 1 1) (mkDate 2020 3 31)
                        ("/data" ++ "/") "47.9" "45.75" "10.6" "5.7" 6
                        "surf" None))
  = ["SURF_202002.nc"; "SURF_202003.nc"].
Proof.
  pose proof (printed_names_are_file_names
                (fun p => (p =? "/data/SURF_202001.nc")%string)
                "reanalysis" (mkDate 2020 1 1) (mkDate 2020 3 31)
                "/data" "47.9" "45.75" "10.6" "5.7" 6 "surf" None
                eq_refl eq_refl (or_introl eq_refl)) as H.
  cbv zeta in H. destruct H as [_ H]. rewrite H. reflexivity.
Defined.

(** ** More on [eraCat5d] *)

Lemma sorted_nonempty (l : list string) :
  l <> [] -> exists f rest, sorted String.leb l = f :: rest.
Proof.
  intros Hne. destruct (sorted String.leb l) as [|f rest] eqn:E; [|eauto].
  exfalso. destruct l as [|x l]; [congruence|].
  assert (In x (sorted String.leb (x :: l))) as Hin
      by (apply in_sorted; left; reflexivity).
  rewrite E in Hin. exact Hin.
Qed.

Lemma check_output_eq sh cmd :
  check_output sh cmd
  = if sh cmd then ([Shell cmd], inr tt)
    else ([Shell cmd], inl (CalledProcessError cmd)).
Proof.
  unfold check_output. rewrite bind_emit_l. destruct (sh cmd); reflexivity.
Qed.

(** The three ways a run of [eraCat5d] goes once a file matches. *)
Lemma eraCat5d_run_cases glob sh wd grepStr f rest :
  sorted String.leb (glob (wd ++ grepStr ++ "*")) = f :: rest ->
  let merge := "ncrcat " ++ grepStr ++ "*" ++ " " ++ grepStr ++ ".nc" in
  eraCat5d glob sh wd grepStr
  = if sh (ncks_cmd f) then
      if sh merge then
        ([Glob (wd ++ grepStr ++ "*"); Shell (ncks_cmd f); Shell merge],
         inr tt)
      else
        ([Glob (wd ++ grepStr ++ "*"); Shell (ncks_cmd f); Shell merge],
         inl (CalledProcessError merge))
    else
      ([Glob (wd ++ grepStr ++ "*"); Shell (ncks_cmd f)],
       inl (CalledProcessError (ncks_cmd f))).
Proof.
  intros E merge. unfold eraCat5d. rewrite bind_emit_l, E.
  cbn [list_first]. rewrite bind_ret_l. fold (ncks_cmd f). fold merge.
  rewrite !check_output_eq.
  destruct (sh (ncks_cmd f)); [|reflexivity].
  destruct (sh merge); reflexivity.
Qed.

(** X10: [eraCat5d] stops at the first tool that fails.  With files
    matching, [ncks] is run on the first of them; if it fails the run ends
    with its [CalledProcessError] and the merge is not attempted; if it
    succeeds, [ncrcat] is run, and its failure ends the run likewise. *)
Theorem eraCat5d_stops_at_first_failure glob sh wd grepStr f rest :
  sorted String.leb (glob (wd ++ grepStr ++ "*")) = f :: rest ->
  let merge := "ncrcat " ++ grepStr ++ "*" ++ " " ++ grepStr ++ ".nc" in
  let run := eraCat5d glob sh wd grepStr in
  (sh (ncks_cmd f) = false ->
   run = ([Glob (wd ++ grepStr ++ "*"); Shell (ncks_cmd f)],
          inl (CalledProcessError (ncks_cmd f))))
  /\ (sh (ncks_cmd f) = true -> sh merge = false ->
      run = ([Glob (wd ++ grepStr ++ "*"); Shell (ncks_cmd f); Shell merge],
             inl (CalledProcessError merge)))
  /\ (sh (ncks_cmd f) = true -> sh merge = true ->
      run = ([Glob (wd ++ grepStr ++ "*"); Shell (ncks_cmd f); Shell merge],
             inr tt))
  /\ (fails run <-> sh (ncks_cmd f) = false \/ sh merge = false).
Proof.
  intros E merge run. subst run.
  pose proof (eraCat5d_run_cases glob sh wd grepStr f rest E) as R.
  cbv zeta in R. fold merge in R. rewrite R.
  destruct (sh (ncks_cmd f)) eqn:E1; [destruct (sh merge) eqn:E2|];
    repeat split; intros; try discriminate; try reflexivity; auto.
  - destruct H as [g Hg]. discriminate Hg.
  - destruct H; discriminate.
  - eexists; reflexivity.
  - eexists; reflexivity.
Qed.

Lemma eraCat5d_stops_at_first_failure_witness :
  eraCat5d (fun _ => ["/d/PLEV_202002.nc"; "/d/PLEV_202001.nc"])
           (fun _ => false) "/d/" "PLEV"
  = ([Glob "/d/PLEV*"; Shell (ncks_cmd "/d/PLEV_202001.nc")],
     inl (CalledProcessError (ncks_cmd "/d/PLEV_202001.nc"))).
Proof.
  pose proof (eraCat5d_stops_at_first_failure
           (fun _ => ["/d/PLEV_202002.nc"; "/d/PLEV_202001.nc"])
           (fun _ => false) "/d/" "PLEV"
           "/d/PLEV_202001.nc" ["/d/PLEV_202002.nc"] eq_refl) as H.
  cbv zeta in H. destruct H as [H _]. exact (H eq_refl).
Defined.

(** X11: with at least one file matching, the file [eraCat5d] rewrites is
    one of the matching files and the least of them in string order, and
    it does not depend on the order in which [glob] lists them. *)
Theorem eraCat5d_rewrites_least_file glob glob' sh sh' wd grepStr :
  glob (wd ++ grepStr ++ "*") <> [] ->
  (forall g, In g (glob (wd ++ grepStr ++ "*")) <->
             In g (glob' (wd ++ grepStr ++ "*"))) ->
  exists f t t',
    In f (glob (wd ++ grepStr ++ "*"))
    /\ (forall g, In g (glob (wd ++ grepStr ++ "*")) -> String.leb f g = true)
    /\ trace (eraCat5d glob sh wd grepStr)
       = Glob (wd ++ grepStr ++ "*") :: Shell (ncks_cmd f) :: t
    /\ trace (eraCat5d glob' sh' wd grepStr)
       = Glob (wd ++ grepStr ++ "*") :: Shell (ncks_cmd f) :: t'.
Proof.
  intros Hne Hsame.
  assert (glob' (wd ++ grepStr ++ "*") <> []) as Hne'.
  { destruct (glob (wd ++ grepStr ++ "*")) as [|x l] eqn:E; [congruence|].
    intros E'. rewrite E' in Hsame. apply (proj1 (Hsame x)). left; reflexivity. }
  destruct (sorted_nonempty _ Hne) as (f & rest & E).
  destruct (sorted_nonempty _ Hne') as (f' & rest' & E').
  destruct (first_file_is_least _ _ _ E) as [Hin Hleast].
  destruct (first_file_is_least _ _ _ E') as [Hin' Hleast'].
  assert (f' = f) as ->.
  { apply String.leb_antisym.
    - apply Hleast'. apply Hsame. exact Hin.
    - apply Hleast. apply Hsame. exact Hin'. }
  pose proof (eraCat5d_run_cases glob sh wd grepStr f rest E) as R.
  pose proof (eraCat5d_run_cases glob' sh' wd grepStr f rest' E')
    as R'.
  cbv zeta in R, R'. rewrite R, R'.
  destruct (sh (ncks_cmd f)), (sh' (ncks_cmd f));
    try destruct (sh _); try destruct (sh' _);
    eexists f, _, _; (split; [exact Hin|]); (split; [exact Hleast|]);
    split; reflexivity.
Qed.

Lemma eraCat5d_rewrites_least_file_witness :
  exists f t t',
    In f ["/d/PLEV_202002.nc"; "/d/PLEV_202001.nc"]
    /\ (forall g, In g ["/d/PLEV_202002.nc"; "/d/PLEV_202001.nc"] ->
                  String.leb f g = true)
    /\ trace (eraCat5d (fun _ => ["/d/PLEV_202002.nc"; "/d/PLEV_202001.nc"])
                       (fun _ => true) "/d/" "PLEV")
       = Glob ("/d/" ++ "PLEV" ++ "*") :: Shell (ncks_cmd f) :: t
    /\ trace (eraCat5d (fun _ => ["/d/PLEV_202001.nc"; "/d/PLEV_202002.nc"])
                       (fun _ => false) "/d/" "PLEV")
       = Glob ("/d/" ++ "PLEV" ++ "*") :: Shell (ncks_cmd f) :: t'.
Proof.
  apply (eraCat5d_rewrites_least_file
           (fun _ => ["/d/PLEV_202002.nc"; "/d/PLEV_202001.nc"])
           (fun _ => ["/d/PLEV_202001.nc"; "/d/PLEV_202002.nc"])
           (fun _ => true) (fun _ => false) "/d/" "PLEV").
  - discriminate.
  - intros g. simpl. tauto.
Defined.

(** ** More on [retrieve_era5_tpmm] *)

Lemma tpmm_start_year s :
  wf_date s ->
  Calendar.year (tpmm_start s)
  = if Calendar.month s =? 1 then Calendar.year s - 1 else Calendar.year s.
Proof.
  intros [Hm _]. unfold tpmm_start, add_relativedelta_months.
  cbn [Calendar.year].
  destruct (Z.ltb_spec 12 (Calendar.month s + -1)); [lia|].
  destruct (Z.ltb_spec (Calendar.month s + -1) 1);
    destruct (Z.eqb_spec (Calendar.month s) 1); lia.
Qed.

Lemma tpmm_end_year e :
  wf_date e ->
  Calendar.year (tpmm_end e)
  = if Calendar.month e =? 12 then Calendar.year e + 1 else Calendar.year e.
Proof.
  intros [Hm _]. unfold tpmm_end, add_relativedelta_months.
  cbn [Calendar.year].
  destruct (Z.ltb_spec 12 (Calendar.month e + 1));
    destruct (Z.eqb_spec (Calendar.month e) 12); try lia.
  destruct (Z.ltb_spec (Calendar.month e + 1) 1); lia.
Qed.

(** X12: for [startDate <= endDate] the years requested are the
    consecutive years from [startDate]'s to [endDate]'s, with the year
    before added when [startDate] is in January and the year after added
    when [endDate] is in December; the years of both dates are always
    among them. *)
Theorem tpmm_years_reach_over_year_ends s e :
  valid_date s -> valid_date e -> date_leb s e = true ->
  let first := if Calendar.month s =? 1 then Calendar.year s - 1
               else Calendar.year s in
  let last := if Calendar.month e =? 12 then Calendar.year e + 1
              else Calendar.year e in
  tpmm_years s e = zrange first (Z.to_nat (last - first + 1))
  /\ In (Calendar.year s) (tpmm_years s e)
  /\ In (Calendar.year e) (tpmm_years s e).
Proof.
  intros Hs He Hle first last.
  pose proof (valid_wf _ Hs) as Ws. pose proof (valid_wf _ He) as We.
  assert (tpmm_years s e = zrange first (Z.to_nat (last - first + 1))) as E.
  { rewrite tpmm_years_closed by assumption.
    rewrite tpmm_start_year, tpmm_end_year by assumption. reflexivity. }
  assert (Calendar.year s <= Calendar.year e) as Hy.
  { pose proof (year_within s e s Ws We Ws) as H.
    assert (date_leb s s = true) as Hss
        by (apply date_leb_iff; [assumption..|lia]).
    specialize (H (conj Hss Hle)). lia. }
  split; [exact E|]. rewrite E, !in_zrange. subst first last.
  destruct (Z.eqb_spec (Calendar.month s) 1);
    destruct (Z.eqb_spec (Calendar.month e) 12); lia.
Qed.

Lemma tpmm_years_reach_over_year_ends_witness :
  tpmm_years (mkDate 2019 1 10) (mkDate 2019 12 5) = [2018; 2019; 2020].
Proof.
  pose proof (tpmm_years_reach_over_year_ends
                (mkDate 2019 1 10) (mkDate 2019 12 5)
                eq_refl eq_refl eq_refl) as H.
  cbv zeta in H. destruct H as [H _]. rewrite H. reflexivity.
Defined.



(** ** The reported start and end dates (lines 75-76) *)

Lemma series_getitem_nth {A} (l : list A) k d :
  0 <= k < Z.of_nat (List.length l) ->
  series_getitem l k = ret (nth (Z.to_nat k) l d).
Proof.
  intros Hk. unfold series_getitem.
  destruct (Z.leb_spec 0 k); [|lia].
  destruct (Z.ltb_spec k (Z.of_nat (List.length l))); [|lia].
  cbn [andb].
  destruct (nth_error l (Z.to_nat k)) as [a|] eqn:E.
  - rewrite (nth_error_nth _ _ d E). reflexivity.
  - apply nth_error_None in E. lia.
Qed.

Lemma nth_zrange i n k d :
  (k < n)%nat -> nth k (zrange i n) d = i + Z.of_nat k.
Proof.
  revert i k. induction n as [|n IH]; intros i k Hk; [lia|].
  destruct k as [|k]; cbn [zrange nth]; [lia|].
  rewrite IH by lia. lia.
Qed.

(** X14: when the plan is not empty, the "Start date" and "End date" the
    run reports are not the caller's dates but the last day of
    [startDate]'s month and the last day of the last month ended by
    [endDate]; every row's date is the last day of the row's month. *)
Theorem reported_dates_are_month_ends
    isfile product s e eraDir latN latS lonE lonW step surf_plev plevels :
  valid_date s -> valid_date e -> known_kind surf_plev ->
  ~ no_month_end s e ->
  let plan := rows_of (build_frame isfile product s e eraDir latN latS lonE
                                   lonW step surf_plev plevels) in
  series_getitem (map Row.dates plan) 0
  = ret (month_end (Calendar.year s) (Calendar.month s))
  /\ series_getitem (map Row.dates plan) (Z.of_nat (List.length plan) - 1)
     = ret (month_end_of_index (last_ended_index e))
  /\ Forall (fun r => Row.dates r = month_end (Row.year r) (Row.month r)
                      /\ is_on_offset (Row.dates r) = true)
            plan.
Proof.
  intros Hs He Hk Hno plan. subst plan.
  pose proof (valid_wf _ Hs) as Ws. pose proof (valid_wf _ He) as We.
  destruct (rows_known_kind isfile product s e eraDir latN latS lonE lonW
              step surf_plev plevels Hk) as [cell ->].
  unfold rows_of. cbn [outcome snd].
  rewrite map_map. cbn [row_of Row.dates]. rewrite map_id, length_map.
  assert (0 < last_ended_index e - month_index s + 1) as Hpos.
  { destruct (Z.ltb_spec 0 (last_ended_index e - month_index s + 1));
      [assumption|].
    exfalso. apply Hno. apply date_range_M_nil_iff; try assumption.
    apply length_zero_iff_nil. rewrite date_range_M_length by assumption. lia. }
  rewrite date_range_M_length by assumption.
  rewrite date_range_M_closed by assumption.
  set (n := Z.to_nat (last_ended_index e - month_index s + 1)).
  assert (List.length (map month_end_of_index (zrange (month_index s) n)) = n)
    as Hlen by (rewrite length_map; apply zrange_length).
  split; [|split].
  - rewrite (series_getitem_nth _ _ (month_end_of_index 0))
      by (rewrite Hlen; lia).
    rewrite map_nth, nth_zrange by lia.
    rewrite Z.add_0_r. rewrite month_end_of_month_index by apply Ws.
    reflexivity.
  - rewrite (series_getitem_nth _ _ (month_end_of_index 0))
      by (rewrite Hlen; lia).
    rewrite map_nth, nth_zrange by lia.
    f_equal. f_equal. lia.
  - apply Forall_forall. intros r Hr. apply in_map_iff in Hr.
    destruct Hr as (x & <- & Hx). apply in_map_iff in Hx.
    destruct Hx as (i & <- & _). cbn [row_of Row.dates Row.year Row.month].
    split; [reflexivity|apply is_on_offset_month_end_of_index].
Qed.

Lemma not_no_month_end_q1_2020 :
  ~ no_month_end (mkDate 2020 1 5) (mkDate 2020 3 20).
Proof.
  intros H. apply (H (mkDate 2020 1 31)).
  - unfold wf_date. cbn. lia.
  - reflexivity.
  - split; reflexivity.
Defined.

Lemma reported_dates_are_month_ends_witness :
  series_getitem
    (map Row.dates
       (rows_of (build_frame (fun _ => false) "reanalysis"
                   (mkDate 2020 1 5) (mkDate 2020 3 20) "/data/"
                   "47.9" "45.75" "10.6" "5.7" 6 "surf" None))) 0
  = ret (mkDate 2020 1 31).
Proof.
  pose proof (reported_dates_are_month_ends (fun _ => false) "reanalysis"
                (mkDate 2020 1 5) (mkDate 2020 3 20) "/data/"
                "47.9" "45.75" "10.6" "5.7" 6 "surf" None
                eq_refl eq_refl (or_introl eq_refl)
                not_no_month_end_q1_2020) as H.
  cbv zeta in H. destruct H as [H _]. exact H.
Defined.
